(** * Multi-Zone Delivery Planner: zone store, import, export and drawn save

    A shallow embedding of [delivery_zone_draw_tool_multi_v_1_2.py] (VERSION
    "v1.4").  The script is re-run from top to bottom on every interaction;
    what survives between two runs is [st.session_state], here
    [session_state].  Each block of the script is a function on that state.

    The libraries the script calls (shapely, json, the bytes codec, pandas'
    CSV writer, the built-in [hash]) are interfaces: the script's behaviour is
    stated for every implementation of them. *)

From Stdlib Require Import List String Ascii ZArith Lia Bool DecimalString.
From Stdlib Require Import Strings.Byte.
Import ListNotations.
Set Warnings "-register-all".
Local Open Scope string_scope.

(* ------------------------------------------------------------------ *)
(** ** Python values as the script sees them                            *)
(* ------------------------------------------------------------------ *)

(** What [json.loads] returns: None, bool, int, str, list, dict.  Numbers are
    integers here; a dict is kept as its items in insertion order. *)
Inductive json : Type :=
| JNull
| JBool (b : bool)
| JNum (n : Z)
| JStr (s : string)
| JArr (items : list json)
| JObj (members : list (string * json)).

(** The exceptions the script can meet. *)
Inductive exn : Type :=
| AttributeError   (* [.get] / [.items] on a value that is not a dict *)
| KeyError         (* [d[k]] with [k] absent *)
| TypeError        (* unhashable key, iteration over a non-iterable *)
| ValueError       (* undecodable bytes, text that is not JSON *)
| GeometryError.   (* [shape] refuses the description *)

Inductive result (A : Type) : Type :=
| Ok (a : A)
| Raise (e : exn).
Arguments Ok {A} a.
Arguments Raise {A} e.

Definition bind {A B : Type} (m : result A) (k : A -> result B) : result B :=
  match m with
  | Ok a => k a
  | Raise e => Raise e
  end.

Notation "x <- m ;; k" := (bind m (fun x => k))
  (at level 61, m at next level, right associativity).

Definition of_option {A : Type} (e : exn) (o : option A) : result A :=
  match o with
  | Some a => Ok a
  | None => Raise e
  end.

Fixpoint lookup (k : string) (kvs : list (string * json)) : option json :=
  match kvs with
  | [] => None
  | (k', v) :: rest => if String.eqb k' k then Some v else lookup k rest
  end.

(** [v.get(k, default)] *)
Definition get (v : json) (k : string) (default : json) : result json :=
  match v with
  | JObj kvs =>
      Ok (match lookup k kvs with Some x => x | None => default end)
  | _ => Raise AttributeError
  end.

(** [v[k]] with a string [k] *)
Definition getitem (v : json) (k : string) : result json :=
  match v with
  | JObj kvs => of_option KeyError (lookup k kvs)
  | _ => Raise TypeError
  end.

(** Truth value of a Python object in an [if]. *)
Definition truthy (v : json) : bool :=
  match v with
  | JNull => false
  | JBool b => b
  | JNum n => negb (n =? 0)%Z
  | JStr s => negb (s =? "")
  | JArr l => match l with [] => false | _ => true end
  | JObj l => match l with [] => false | _ => true end
  end.

Fixpoint chars (s : string) : list json :=
  match s with
  | EmptyString => []
  | String c s' => JStr (String c EmptyString) :: chars s'
  end.

(** [for x in v]: a list gives its items, a dict its keys, a str its
    characters; nothing else can be iterated. *)
Definition iter (v : json) : result (list json) :=
  match v with
  | JArr l => Ok l
  | JObj kvs => Ok (map (fun kv => JStr (fst kv)) kvs)
  | JStr s => Ok (chars s)
  | _ => Raise TypeError
  end.

Definition str_nat (n : nat) : string := NilEmpty.string_of_uint (Nat.to_uint n).
Definition str_Z (z : Z) : string := NilEmpty.string_of_int (Z.to_int z).

(** [str(v)] as an f-string formats a dict key. *)
Definition str (v : json) : string :=
  match v with
  | JNull => "None"
  | JBool true => "True"
  | JBool false => "False"
  | JNum n => str_Z n
  | JStr s => s
  | _ => ""
  end.

(** ** Dicts keyed by Python objects

    [st.session_state.zones] is a dict: insertion ordered, keys compared by
    [==] ([True == 1], [False == 0]), lists and dicts refused as keys.  An
    assignment to a key already present keeps the old key object and its
    place and replaces the value. *)

Definition hashable (k : json) : bool :=
  match k with
  | JArr _ | JObj _ => false
  | _ => true
  end.

Definition key_eqb (a b : json) : bool :=
  match a, b with
  | JNull, JNull => true
  | JBool x, JBool y => Bool.eqb x y
  | JBool x, JNum n | JNum n, JBool x => (n =? (if x then 1 else 0))%Z
  | JNum n, JNum m => (n =? m)%Z
  | JStr s, JStr t => (s =? t)
  | _, _ => false
  end.

Fixpoint dict_set {V : Type} (k : json) (v : V) (d : list (json * V))
  : list (json * V) :=
  match d with
  | [] => [(k, v)]
  | (k', v') :: rest =>
      if key_eqb k' k then (k', v) :: rest else (k', v') :: dict_set k v rest
  end.

(** [d[k] = v] *)
Definition setitem {V : Type} (d : list (json * V)) (k : json) (v : V)
  : result (list (json * V)) :=
  if hashable k then Ok (dict_set k v d) else Raise TypeError.

(** ** Data frames

    A row of the customer table: the cells of the columns read from the CSV
    file, and the entry of the geometry column built from Longitude and
    Latitude. *)

Section Frames.
Variable point : Type.

Record row : Type := { cells : list string; pt : point }.
Record frame : Type := { columns : list string; rows : list row }.

(** A plain table of text, as displayed or written out. *)
Record table : Type := { header : list string; body : list (list string) }.

Fixpoint index_of (c : string) (cols : list string) : option nat :=
  match cols with
  | [] => None
  | c' :: rest =>
      if c' =? c then Some 0
      else match index_of c rest with Some i => Some (S i) | None => None end
  end.

Fixpoint indices (want cols : list string) : result (list nat) :=
  match want with
  | [] => Ok []
  | c :: rest =>
      i <- of_option KeyError (index_of c cols) ;;
      ixs <- indices rest cols ;;
      Ok (i :: ixs)
  end.

(** [df[[c1, ..., cn]]] *)
Definition select (want : list string) (f : frame) : result table :=
  ixs <- indices want (columns f) ;;
  Ok {| header := want;
        body := map (fun r => map (fun i => nth i (cells r) "") ixs) (rows f) |}.

(** [df[mask]] *)
Definition mask_rows (keep : row -> bool) (f : frame) : frame :=
  {| columns := columns f; rows := filter keep (rows f) |}.

(** The whole frame as text cells, geometry column last, as [to_csv]
    receives it. *)
Definition as_table (wkt : point -> string) (f : frame) : table :=
  {| header := (columns f ++ ["geometry"])%list;
     body := map (fun r => (cells r ++ [wkt (pt r)])%list) (rows f) |}.
End Frames.

Arguments cells {point} r.
Arguments pt {point} r.
Arguments columns {point} f.
Arguments rows {point} f.
Arguments select {point} want f.
Arguments mask_rows {point} keep f.
Arguments as_table {point} wkt f.

(* ------------------------------------------------------------------ *)
(** ** The libraries the script calls                                   *)
(* ------------------------------------------------------------------ *)

(** shapely: [shape] builds a geometry from a GeoJSON-like description or
    raises; [mapping] is its inverse direction; [p.within(g)] and
    [a.equals(b)] are the two predicates the script uses. *)
Class Shapely : Type := {
  Geometry : Type;
  Point : Type;
  shape : json -> option Geometry;
  mapping : Geometry -> json;
  within : Point -> Geometry -> bool;
  equals : Geometry -> Geometry -> bool;
  wkt : Point -> string
}.

(** The built-in [hash] on bytes, [bytes.decode("utf-8")] and the encoding of
    a downloaded text, [json.loads] / [json.dumps] on text, and
    [DataFrame.to_csv(index=False)]. *)
Class Runtime : Type := {
  hash : list byte -> Z;
  decode : list byte -> option string;
  encode : string -> list byte;
  json_loads : string -> option json;
  json_dumps : json -> string;
  to_csv : table -> string
}.

(** [json.dumps] writes a dict key that is None, a bool or an int as text;
    a str key is written as it is. *)
Definition key_text (k : json) : string :=
  match k with
  | JNull => "null"
  | JBool true => "true"
  | JBool false => "false"
  | JNum n => str_Z n
  | JStr s => s
  | _ => ""
  end.

(* ------------------------------------------------------------------ *)
(** ** The script                                                       *)
(* ------------------------------------------------------------------ *)

Definition VERSION : string := "v1.4".

Definition palette : list string := ["red"; "blue"; "green"; "purple"; "orange"].

Section Script.
Context {SH : Shapely} {RT : Runtime}.

(** The customer table with its point column, loaded at the top of every
    run from the same file. *)
Variable gdf : frame Point.

(** label -> {geometry, data, count, color} *)
Record zone : Type := {
  geometry : Geometry;
  data : frame Point;
  count : nat;
  color : json
}.

Definition store : Type := list (json * zone).

Record session_state : Type := {
  zones : store;
  last_upload_hash : option Z
}.

(** The state of a new session. *)
Definition fresh : session_state := {| zones := []; last_upload_hash := None |}.

(** What the page shows after a block ran. *)
Inductive notice : Type :=
| st_success (text : string)
| st_error (e : exn)        (* "Failed to import zones: ..." *)
| st_info (text : string).

(** [gdf[gdf.geometry.within(g)].copy()] *)
Definition inside_of (g : Geometry) : frame Point :=
  mask_rows (fun r => within (pt r) g) gdf.

(** *** Import *)

(** One turn of the loop over the features of a FeatureCollection. *)
Definition import_feature (feat : json) (zs : store) : result store :=
  raw <- get feat "geometry" (JObj []) ;;
  geom <- of_option GeometryError (shape raw) ;;
  props <- get feat "properties" (JObj []) ;;
  label <- get props "name" (JStr ("Zone " ++ str_nat (List.length zs + 1))) ;;
  color <- get props "color" (JStr "red") ;;
  let inside := inside_of geom in
  setitem zs label {| geometry := geom;
                      data := inside;
                      count := List.length (rows inside);
                      color := color |}.

(** The loop: an exception leaves it at once, with the zones stored so
    far. *)
Fixpoint import_features (feats : list json) (zs : store) (imported : nat)
  : store * result nat :=
  match feats with
  | [] => (zs, Ok imported)
  | feat :: rest =>
      match import_feature feat zs with
      | Ok zs' => import_features rest zs' (S imported)
      | Raise e => (zs, Raise e)
      end
  end.

(** One turn of the loop over [data.items()] of a legacy export. *)
Definition import_item (label : string) (info : json) (zs : store)
  : result store :=
  raw <- get info "geometry" (JObj []) ;;
  geom <- of_option GeometryError (shape raw) ;;
  color <- get info "color" (JStr "red") ;;
  let inside := inside_of geom in
  setitem zs (JStr label) {| geometry := geom;
                             data := inside;
                             count := List.length (rows inside);
                             color := color |}.

Fixpoint import_items (items : list (string * json)) (zs : store)
  : store * result unit :=
  match items with
  | [] => (zs, Ok tt)
  | (label, info) :: rest =>
      match import_item label info zs with
      | Ok zs' => import_items rest zs'
      | Raise e => (zs, Raise e)
      end
  end.

(** [isinstance(data, dict) and data.get("type") == "FeatureCollection"] *)
Definition is_feature_collection (data : json) : bool :=
  match data with
  | JObj kvs =>
      match lookup "type" kvs with
      | Some (JStr t) => t =? "FeatureCollection"
      | _ => false
      end
  | _ => false
  end.

(** The body of the [try]: the store it leaves, and either the text of
    [st.success] or the exception handed to [except]. *)
Definition import_body (file_bytes : list byte) (zs : store)
  : store * result string :=
  match decode file_bytes with
  | None => (zs, Raise ValueError)
  | Some text =>
      match json_loads text with
      | None => (zs, Raise ValueError)
      | Some data =>
          if is_feature_collection data then
            match (fs <- getitem data "features" ;; iter fs) with
            | Raise e => (zs, Raise e)
            | Ok feats =>
                let (zs', r) := import_features feats zs 0 in
                (zs', imported <- r ;;
                      Ok ("Imported " ++ str_nat imported ++ " zones from GeoJSON."))
            end
          else
            match data with
            | JObj items =>
                let (zs', r) := import_items items zs in
                (zs', _ <- r ;;
                      Ok ("Imported " ++ str_nat (List.length items) ++ " zones from JSON."))
            | _ => (zs, Raise AttributeError)
            end
      end
  end.

Definition hash_differs (h : Z) (last : option Z) : bool :=
  match last with
  | None => true
  | Some h' => negb (h =? h')%Z
  end.

(** [if uploaded: ...] *)
Definition import_block (uploaded : option (list byte)) (st : session_state)
  : session_state * list notice :=
  match uploaded with
  | None => (st, [])
  | Some file_bytes =>
      let file_hash := hash file_bytes in
      if hash_differs file_hash (last_upload_hash st) then
        let (zs, r) := import_body file_bytes (zones st) in
        ({| zones := zs; last_upload_hash := Some file_hash |},
         [match r with Ok text => st_success text | Raise e => st_error e end])
      else
        (st, [st_info "This file has already been imported."])
  end.

(** *** Export *)

Record download : Type := { content : string; file_name : string }.

Definition export_data (zs : store) : list (json * json) :=
  map (fun lz => (fst lz, JObj [("geometry", mapping (geometry (snd lz)));
                                ("color", color (snd lz))])) zs.

(** [json.dumps] of a dict keyed by labels: the keys become text. *)
Definition as_object (d : list (json * json)) : json :=
  JObj (map (fun kv => (key_text (fst kv), snd kv)) d).

Definition dumps_dict (d : list (json * json)) : string :=
  json_dumps (as_object d).

(** [if st.session_state.zones: ... st.download_button(...)] *)
Definition export_block (st : session_state) : option download :=
  match zones st with
  | [] => None
  | _ => Some {| content := dumps_dict (export_data (zones st));
                 file_name := "zones_export_" ++ VERSION ++ ".json" |}
  end.

(** *** Save newly drawn polygon

    [output] is what the map component returned, [label] the content of the
    text input and [clicked] whether the button was pressed; the last two
    exist only when the block offers them.  [shape] is outside any [try]:
    its exception ends the run. *)
Definition save_block (output : json) (label : string) (clicked : bool)
    (st : session_state) : result (session_state * list notice) :=
  if truthy output then
    drawing <- get output "last_active_drawing" JNull ;;
    if truthy drawing then
      raw <- getitem drawing "geometry" ;;
      new_poly <- of_option GeometryError (shape raw) ;;
      if negb (existsb (fun z => equals new_poly (geometry z))
                       (map snd (zones st))) then
        if clicked then
          let inside := inside_of new_poly in
          let color := nth (List.length (zones st) mod List.length palette) palette "" in
          zs <- setitem (zones st) (JStr label)
                  {| geometry := new_poly;
                     data := inside;
                     count := List.length (rows inside);
                     color := JStr color |} ;;
          Ok ({| zones := zs; last_upload_hash := last_upload_hash st |},
              [st_success ("Saved " ++ label ++ " with "
                          ++ str_nat (List.length (rows inside)) ++ " customers.")])
        else Ok (st, [])
      else Ok (st, [])
    else Ok (st, [])
  else Ok (st, []).

(** *** Summary table *)

Definition shown_columns : list string :=
  ["Customer ID"; "Street Address"; "Lifetime Net Sales";
   "Lifetime Avg Order Value"].

Record summary_item : Type := {
  subheader : string;
  shown : table;             (* [st.dataframe] *)
  csv : download             (* [st.download_button] *)
}.

Definition summary_of (label : json) (z : zone) : result summary_item :=
  tbl <- select shown_columns (data z) ;;
  Ok {| subheader := str label ++ " – " ++ str_nat (count z) ++ " customers";
        shown := tbl;
        csv := {| content := to_csv (as_table wkt (data z));
                  file_name := str label ++ "_Customers_" ++ VERSION ++ ".csv" |} |}.

Fixpoint summary_block (zs : store) : result (list summary_item) :=
  match zs with
  | [] => Ok []
  | (label, z) :: rest =>
      item <- summary_of label z ;;
      items <- summary_block rest ;;
      Ok (item :: items)
  end.

(** *** One run of the script *)

Record inputs : Type := {
  uploaded : option (list byte);
  output : json;
  label_text : string;
  save_clicked : bool
}.

(** The session state a run leaves behind.  An exception in the save block
    ends the run after the import block has done its work. *)
Definition script_run (i : inputs) (st : session_state) : session_state :=
  let st1 := fst (import_block (uploaded i) st) in
  match save_block (output i) (label_text i) (save_clicked i) st1 with
  | Ok (st2, _) => st2
  | Raise _ => st1
  end.

Inductive reachable : session_state -> Prop :=
| reach_fresh : reachable fresh
| reach_run (i : inputs) (st : session_state) :
    reachable st -> reachable (script_run i st).

(** *** What is said about a store *)

(** [d[k]] read back. *)
Fixpoint dict_get {V : Type} (k : json) (d : list (json * V)) : option V :=
  match d with
  | [] => None
  | (k', v) :: rest => if key_eqb k' k then Some v else dict_get k rest
  end.

(** The members of a zone are the customers its geometry contains, in the
    order of the customer table, and [count] is their number. *)
Definition zone_ok (z : zone) : Prop :=
  data z = inside_of (geometry z) /\ count z = List.length (rows (data z)).

Definition store_ok (zs : store) : Prop :=
  Forall (fun lz => zone_ok (snd lz)) zs.

(** No two entries of a dict have keys that compare equal. *)
Fixpoint distinct_keys {V : Type} (d : list (json * V)) : Prop :=
  match d with
  | [] => True
  | (k, _) :: rest =>
      Forall (fun kv => key_eqb (fst kv) k = false) rest /\ distinct_keys rest
  end.

(** What every run of the script keeps true of the store. *)
Definition store_inv (zs : store) : Prop := store_ok zs /\ distinct_keys zs.

Definition text_label (k : json) : Prop := exists s, k = JStr s.

(** The zone the legacy import rebuilds from an exported entry survives the
    trip through [mapping] and [shape]: the geometry read back is equal to
    the stored one and contains the same customers. *)
Definition geometry_round_trips (z : zone) : Prop :=
  exists g', shape (mapping (geometry z)) = Some g'
             /\ equals (geometry z) g' = true
             /\ forall r, In r (rows gdf) ->
                          within (pt r) g' = within (pt r) (geometry z).

(** Two stores with the same zones up to geometric equality. *)
Definition same_zone (z z' : zone) : Prop :=
  equals (geometry z) (geometry z') = true
  /\ color z' = color z
  /\ data z' = inside_of (geometry z')
  /\ data z' = data z
  /\ count z' = count z.

End Script.

(* ------------------------------------------------------------------ *)
(** ** A geometry library on integer coordinates                        *)
(* ------------------------------------------------------------------ *)

(** Modelled from the spec: shapely is not part of the repository; this is
    section 4.1 (Geometry Utilities) of the specification on exact integer
    coordinates, for the Polygon tag: [parse_geometry] refuses another tag,
    malformed coordinates and a ring of fewer than 4 points; [contains] is
    the even-odd rule, exclusive of the boundary, a point in a hole is not
    contained; [geometries_equal] compares rings up to start vertex and
    direction; [to_geometry] writes the description back. *)
Module Plane.

Definition pos : Type := (Z * Z)%type.
Definition ring : Type := list pos.
Record polygon : Type := { exterior : ring; holes : list ring }.

Local Open Scope Z_scope.

Definition pos_eqb (a b : pos) : bool :=
  (fst a =? fst b) && (snd a =? snd b).

Fixpoint ring_eqb (r s : ring) : bool :=
  match r, s with
  | [], [] => true
  | a :: r', b :: s' => pos_eqb a b && ring_eqb r' s'
  | _, _ => false
  end.

(** *** parse_geometry *)

Definition parse_pos (v : json) : option pos :=
  match v with
  | JArr [JNum x; JNum y] => Some (x, y)
  | _ => None
  end.

Fixpoint parse_all {A : Type} (f : json -> option A) (l : list json)
  : option (list A) :=
  match l with
  | [] => Some []
  | v :: rest =>
      match f v, parse_all f rest with
      | Some a, Some r => Some (a :: r)
      | _, _ => None
      end
  end.

Definition parse_ring (v : json) : option ring :=
  match v with
  | JArr ps =>
      match parse_all parse_pos ps with
      | Some r => if (4 <=? List.length r)%nat then Some r else None
      | None => None
      end
  | _ => None
  end.

Definition parse_geometry (raw : json) : option polygon :=
  match raw with
  | JObj kvs =>
      match lookup "type" kvs, lookup "coordinates" kvs with
      | Some (JStr "Polygon"), Some (JArr rs) =>
          match parse_all parse_ring rs with
          | Some (ext :: hs) => Some {| exterior := ext; holes := hs |}
          | _ => None
          end
      | _, _ => None
      end
  | _ => None
  end.

(** *** to_geometry *)

Definition ring_json (r : ring) : json :=
  JArr (map (fun p => JArr [JNum (fst p); JNum (snd p)]) r).

Definition to_geometry (g : polygon) : json :=
  JObj [("type", JStr "Polygon");
        ("coordinates", JArr (map ring_json (exterior g :: holes g)))].

(** *** contains *)

Inductive side : Type := Inside | Boundary | Outside.

Definition edges (r : ring) : list (pos * pos) :=
  match r with
  | [] => []
  | first :: rest => combine r (rest ++ [first])
  end.

Definition on_segment (p : pos) (e : pos * pos) : bool :=
  let (px, py) := p in
  let '((x1, y1), (x2, y2)) := e in
  ((x2 - x1) * (py - y1) =? (y2 - y1) * (px - x1))
  && (Z.min x1 x2 <=? px) && (px <=? Z.max x1 x2)
  && (Z.min y1 y2 <=? py) && (py <=? Z.max y1 y2).

(** The half-line from [p] towards larger x meets the edge. *)
Definition crosses (p : pos) (e : pos * pos) : bool :=
  let (px, py) := p in
  let '((x1, y1), (x2, y2)) := e in
  if Bool.eqb (py <? y1) (py <? y2) then false
  else if y1 <? y2
       then (px - x1) * (y2 - y1) <? (py - y1) * (x2 - x1)
       else (py - y1) * (x2 - x1) <? (px - x1) * (y2 - y1).

Definition locate (p : pos) (r : ring) : side :=
  if existsb (on_segment p) (edges r) then Boundary
  else if Nat.odd (List.length (filter (crosses p) (edges r))) then Inside
       else Outside.

Definition is_inside (s : side) : bool :=
  match s with Inside => true | _ => false end.
Definition is_outside (s : side) : bool :=
  match s with Outside => true | _ => false end.

Definition contains (g : polygon) (p : pos) : bool :=
  is_inside (locate p (exterior g))
  && forallb (fun h => is_outside (locate p h)) (holes g).

(** *** geometries_equal *)

(** A ring without its closing vertex. *)
Definition open_ring (r : ring) : ring :=
  match r with
  | [] => []
  | first :: _ =>
      if pos_eqb first (last r first) then removelast r else r
  end.

Definition rotations (r : ring) : list ring :=
  map (fun k => skipn k r ++ firstn k r)%list (seq 0 (List.length r)).

Definition same_ring (r s : ring) : bool :=
  let r' := open_ring r in
  let s' := open_ring s in
  existsb (ring_eqb s') (rotations r')
  || existsb (ring_eqb s') (rotations (rev r')).

Definition geometries_equal (a b : polygon) : bool :=
  same_ring (exterior a) (exterior b)
  && (List.length (holes a) =? List.length (holes b))%nat
  && forallb (fun h => existsb (same_ring h) (holes b)) (holes a)
  && forallb (fun h => existsb (same_ring h) (holes a)) (holes b).

Definition point_text (p : pos) : string :=
  "POINT (" ++ str_Z (fst p) ++ " " ++ str_Z (snd p) ++ ")".

Definition lib : Shapely :=
  {| Geometry := polygon;
     Point := pos;
     shape := parse_geometry;
     mapping := to_geometry;
     within := fun p g => contains g p;
     equals := geometries_equal;
     wkt := point_text |}.

End Plane.

(* ------------------------------------------------------------------ *)
(** ** A runtime for ASCII payloads                                     *)
(* ------------------------------------------------------------------ *)

(** Modelled from the spec: the Python runtime is not part of the
    repository; this is section 6 (import and export payloads are JSON, the
    per-zone export is delimited text) and the content fingerprint of section
    4.3, for ASCII text: JSON with integers and with strings that escape only
    the quote and the backslash, written with the separators [json.dumps]
    uses; a parsed object keeps one entry per key, the last value at the
    first place; the CSV writer joins cells with commas and does not quote. *)
Module Codec.

Definition dquote : ascii := "034"%char.
Definition backslash : ascii := "092"%char.
Definition newline : ascii := "010"%char.

(** *** Writing *)

Fixpoint escape (s : string) : string :=
  match s with
  | EmptyString => EmptyString
  | String c rest =>
      if (c =? dquote)%char || (c =? backslash)%char
      then String backslash (String c (escape rest))
      else String c (escape rest)
  end.

Definition quoted (s : string) : string :=
  String dquote (escape s ++ String dquote EmptyString).

Fixpoint print (v : json) : string :=
  match v with
  | JNull => "null"
  | JBool true => "true"
  | JBool false => "false"
  | JNum n => str_Z n
  | JStr s => quoted s
  | JArr l =>
      "[" ++ (fix items (l : list json) : string :=
                match l with
                | [] => ""
                | x :: rest =>
                    match rest with
                    | [] => print x
                    | _ => print x ++ ", " ++ items rest
                    end
                end) l ++ "]"
  | JObj kvs =>
      "{" ++ (fix members (l : list (string * json)) : string :=
                match l with
                | [] => ""
                | (k, x) :: rest =>
                    match rest with
                    | [] => quoted k ++ ": " ++ print x
                    | _ => quoted k ++ ": " ++ print x ++ ", " ++ members rest
                    end
                end) kvs ++ "}"
  end.

(** *** Reading *)

Definition is_ws (c : ascii) : bool :=
  (c =? " ")%char || (c =? newline)%char || (c =? "009")%char
  || (c =? "013")%char.

Fixpoint skip_ws (s : string) : string :=
  match s with
  | String c rest => if is_ws c then skip_ws rest else s
  | EmptyString => s
  end.

Definition digit_of (c : ascii) : option Z :=
  let n := nat_of_ascii c in
  if (48 <=? n)%nat && (n <=? 57)%nat then Some (Z.of_nat (n - 48)) else None.

Fixpoint read_digits (acc : Z) (s : string) : Z * string :=
  match s with
  | String c rest =>
      match digit_of c with
      | Some d => read_digits (acc * 10 + d) rest
      | None => (acc, s)
      end
  | EmptyString => (acc, s)
  end.

Definition read_nat (s : string) : option (Z * string) :=
  match s with
  | String c _ =>
      match digit_of c with
      | Some _ => Some (read_digits 0 s)
      | None => None
      end
  | EmptyString => None
  end.

(** The text of a string literal after its opening quote. *)
Fixpoint read_string (s : string) : option (string * string) :=
  match s with
  | EmptyString => None
  | String c rest =>
      if (c =? dquote)%char then Some (EmptyString, rest)
      else if (c =? backslash)%char then
        match rest with
        | String e rest' =>
            if (e =? dquote)%char || (e =? backslash)%char then
              match read_string rest' with
              | Some (t, r) => Some (String e t, r)
              | None => None
              end
            else None
        | EmptyString => None
        end
      else
        match read_string rest with
        | Some (t, r) => Some (String c t, r)
        | None => None
        end
  end.

Definition after (word : string) (s : string) : option string :=
  if prefix word s
  then Some (substring (String.length word) (String.length s - String.length word) s)
  else None.

(** An object read from text is a dict: a key met again keeps its place
    and takes the new value. *)
Fixpoint obj_set (k : string) (v : json) (d : list (string * json))
  : list (string * json) :=
  match d with
  | [] => [(k, v)]
  | (k', v') :: rest =>
      if k' =? k then (k', v) :: rest else (k', v') :: obj_set k v rest
  end.

Definition as_dict (kvs : list (string * json)) : list (string * json) :=
  fold_left (fun d kv => obj_set (fst kv) (snd kv) d) kvs [].

Fixpoint read_value (fuel : nat) (s : string) : option (json * string) :=
  match fuel with
  | O => None
  | S fuel' =>
      match skip_ws s with
      | EmptyString => None
      | String c rest =>
          if (c =? "n")%char then
            match after "ull" rest with Some r => Some (JNull, r) | None => None end
          else if (c =? "t")%char then
            match after "rue" rest with Some r => Some (JBool true, r) | None => None end
          else if (c =? "f")%char then
            match after "alse" rest with Some r => Some (JBool false, r) | None => None end
          else if (c =? dquote)%char then
            match read_string rest with
            | Some (t, r) => Some (JStr t, r)
            | None => None
            end
          else if (c =? "-")%char then
            match read_nat rest with
            | Some (n, r) => Some (JNum (- n), r)
            | None => None
            end
          else if (c =? "[")%char then
            match skip_ws rest with
            | String c' r =>
                if (c' =? "]")%char then Some (JArr [], r)
                else match read_items fuel' rest with
                     | Some (l, r') => Some (JArr l, r')
                     | None => None
                     end
            | EmptyString => None
            end
          else if (c =? "{")%char then
            match skip_ws rest with
            | String c' r =>
                if (c' =? "}")%char then Some (JObj [], r)
                else match read_members fuel' rest with
                     | Some (l, r') => Some (JObj (as_dict l), r')
                     | None => None
                     end
            | EmptyString => None
            end
          else
            match read_nat (String c rest) with
            | Some (n, r) => Some (JNum n, r)
            | None => None
            end
      end
  end
with read_items (fuel : nat) (s : string) : option (list json * string) :=
  match fuel with
  | O => None
  | S fuel' =>
      match read_value fuel' s with
      | Some (v, r) =>
          match skip_ws r with
          | String c r' =>
              if (c =? "]")%char then Some ([v], r')
              else if (c =? ",")%char then
                match read_items fuel' r' with
                | Some (l, r'') => Some (v :: l, r'')
                | None => None
                end
              else None
          | EmptyString => None
          end
      | None => None
      end
  end
with read_members (fuel : nat) (s : string)
  : option (list (string * json) * string) :=
  match fuel with
  | O => None
  | S fuel' =>
      match skip_ws s with
      | String q r0 =>
          if (q =? dquote)%char then
            match read_string r0 with
            | Some (k, r1) =>
                match skip_ws r1 with
                | String colon r2 =>
                    if (colon =? ":")%char then
                      match read_value fuel' r2 with
                      | Some (v, r3) =>
                          match skip_ws r3 with
                          | String c r4 =>
                              if (c =? "}")%char then Some ([(k, v)], r4)
                              else if (c =? ",")%char then
                                match read_members fuel' r4 with
                                | Some (l, r5) => Some ((k, v) :: l, r5)
                                | None => None
                                end
                              else None
                          | EmptyString => None
                          end
                      | None => None
                      end
                    else None
                | EmptyString => None
                end
            | None => None
            end
          else None
      | EmptyString => None
      end
  end.

Definition parse (s : string) : option json :=
  match read_value (S (String.length s)) s with
  | Some (v, r) =>
      match skip_ws r with
      | EmptyString => Some v
      | _ => None
      end
  | None => None
  end.

(** *** Bytes *)

Definition ascii_only (bs : list byte) : bool :=
  forallb (fun b => (Byte.to_N b <? 128)%N) bs.

Definition decode_text (bs : list byte) : option string :=
  if ascii_only bs then Some (string_of_list_byte bs) else None.

Definition fingerprint (bs : list byte) : Z :=
  fold_left (fun h b => ((h * 1000003 + Z.of_N (Byte.to_N b)) mod (2 ^ 61 - 1))%Z)
            bs 0%Z.

(** *** Delimited text *)

Definition line (fields : list string) : string :=
  String.concat "," fields ++ String newline EmptyString.

Definition write_csv (t : table) : string :=
  line (header t) ++ String.concat "" (map line (body t)).

Definition lib : Runtime :=
  {| hash := fingerprint;
     decode := decode_text;
     encode := list_byte_of_string;
     json_loads := parse;
     json_dumps := print;
     to_csv := write_csv |}.

End Codec.

(* ------------------------------------------------------------------ *)
(** ** A small session                                                  *)
(* ------------------------------------------------------------------ *)

(** Three customers, A at (0,0), B at (5,5) and C at (1,0); squares of side 2
    around A and B (C lies on an edge of the first); and the payloads and
    drawings used to run the script on them. *)
Module Demo.

Local Open Scope Z_scope.

Definition roster : frame Plane.pos :=
  {| columns := ["Customer ID"; "Street Address"; "Latitude"; "Longitude";
                 "Lifetime Net Sales"; "Lifetime Avg Order Value"];
     rows := [ {| cells := ["A"; "1 First St"; "0"; "0"; "100"; "20"];
                  pt := (0, 0) |};
               {| cells := ["B"; "5 Fifth Ave"; "5"; "5"; "250"; "50"];
                  pt := (5, 5) |};
               {| cells := ["C"; "9 Edge Rd"; "0"; "1"; "75"; "25"];
                  pt := (1, 0) |} ] |}.

Definition xy (x y : Z) : json := JArr [JNum x; JNum y].

Definition polygon_of (ring : list json) : json :=
  JObj [("type", JStr "Polygon"); ("coordinates", JArr [JArr ring])].

(** The square around (cx, cy), counter-clockwise from its lower left
    corner. *)
Definition square (cx cy : Z) : json :=
  polygon_of [xy (cx - 1) (cy - 1); xy (cx + 1) (cy - 1); xy (cx + 1) (cy + 1);
              xy (cx - 1) (cy + 1); xy (cx - 1) (cy - 1)].

(** The same square, clockwise from its upper right corner. *)
Definition square_turned (cx cy : Z) : json :=
  polygon_of [xy (cx + 1) (cy + 1); xy (cx + 1) (cy - 1); xy (cx - 1) (cy - 1);
              xy (cx - 1) (cy + 1); xy (cx + 1) (cy + 1)].

(** A ring of two points: no geometry. *)
Definition sliver : json := polygon_of [xy 0 0; xy 1 1].

Definition feature (props : list (string * json)) (g : json) : json :=
  JObj [("type", JStr "Feature"); ("properties", JObj props); ("geometry", g)].

Definition collection (feats : list json) : json :=
  JObj [("type", JStr "FeatureCollection"); ("features", JArr feats)].

Definition file_of (v : json) : list byte :=
  list_byte_of_string (Codec.print v).

(** What the map component returns after a shape was drawn. *)
Definition drawn (g : json) : json :=
  JObj [("last_active_drawing", JObj [("type", JStr "Feature"); ("geometry", g)])].

Definition nothing_drawn : json := JObj [("last_active_drawing", JNull)].

Definition run (i : inputs) (st : session_state) : session_state :=
  script_run (SH := Plane.lib) (RT := Codec.lib) roster i st.

Definition upload (file : list byte) : inputs :=
  {| uploaded := Some file; output := nothing_drawn;
     label_text := ""; save_clicked := false |}.

Definition draw_and_save (g : json) (label : string) : inputs :=
  {| uploaded := None; output := drawn g;
     label_text := label; save_clicked := true |}.

(** "North" drawn and saved in a new session. *)
Definition north_saved : session_state :=
  run (draw_and_save (square 0 0) "North") (fresh (SH := Plane.lib)).

(** Then "South" drawn and saved. *)
Definition north_south : session_state :=
  run (draw_and_save (square 5 5) "South") north_saved.

(** A legacy payload with one entry that names no color. *)
Definition south_plain : list byte :=
  file_of (JObj [("South", JObj [("geometry", square 5 5)])]).

Definition north_feature : json := feature [("name", JStr "North")] (square 0 0).
Definition broken_feature : json := feature [("name", JStr "Broken")] sliver.
Definition south_feature : json := feature [("name", JStr "South")] (square 5 5).

(** Three features, the second without a geometry. *)
Definition north_sliver_south : list byte :=
  file_of (collection [north_feature; broken_feature; south_feature]).

(** A feature whose name is the number 5. *)
Definition numbered : list byte :=
  file_of (collection [feature [("name", JNum 5)] (square 0 0)]).

Definition not_json : list byte := list_byte_of_string "zones, please".

Definition customer_A : row Plane.pos :=
  {| cells := ["A"; "1 First St"; "0"; "0"; "100"; "20"]; pt := (0, 0) |}.

Definition north_square : Plane.polygon :=
  {| Plane.exterior := [(-1, -1); (1, -1); (1, 1); (-1, 1); (-1, -1)];
     Plane.holes := [] |}.

(** The zone "North" as the drawn save builds it. *)
Definition north_zone : zone (SH := Plane.lib) :=
  {| geometry := north_square : Geometry (Shapely := Plane.lib);
     data := {| columns := columns roster; rows := [customer_A] |};
     count := 1;
     color := JStr "red" |}.

Definition customer_B : row Plane.pos :=
  {| cells := ["B"; "5 Fifth Ave"; "5"; "5"; "250"; "50"]; pt := (5, 5) |}.

Definition south_square : Plane.polygon :=
  {| Plane.exterior := [(4, 4); (6, 4); (6, 6); (4, 6); (4, 4)];
     Plane.holes := [] |}.

Definition south_zone (c : string) : zone (SH := Plane.lib) :=
  {| geometry := south_square : Geometry (Shapely := Plane.lib);
     data := {| columns := columns roster; rows := [customer_B] |};
     count := 1;
     color := JStr c |}.

(** [north_square] from its upper right corner, the other way round. *)
Definition turned_square : Plane.polygon :=
  {| Plane.exterior := [(1, 1); (1, -1); (-1, -1); (-1, 1); (1, 1)];
     Plane.holes := [] |}.

Definition customer_C : row Plane.pos :=
  {| cells := ["C"; "9 Edge Rd"; "0"; "1"; "75"; "25"]; pt := (1, 0) |}.

(** A frame of side 6 around B with the square around B cut out. *)
Definition frame_around_B : Plane.polygon :=
  {| Plane.exterior := [(2, 2); (8, 2); (8, 8); (2, 8); (2, 2)];
     Plane.holes := [[(4, 4); (4, 6); (6, 6); (6, 4); (4, 4)]] |}.

Definition import_of (file : list byte) (st : session_state)
  : session_state * list notice :=
  import_block (SH := Plane.lib) (RT := Codec.lib) roster (Some file) st.

(** The store after the file with the numbered feature was imported. *)
Definition five_store : session_state := run (upload numbered) fresh.

Definition export_of (st : session_state (SH := Plane.lib)) : download :=
  match export_block (RT := Codec.lib) st with
  | Some d => d
  | None => {| content := ""; file_name := "" |}
  end.

Definition summary_of_store (st : session_state (SH := Plane.lib))
  : list summary_item :=
  match summary_block (RT := Codec.lib) (zones st) with
  | Ok items => items
  | Raise _ => []
  end.

(** *** More payloads, drawings and stores *)

(** "North" saved again over the square around B: the zone that replaces
    the first one. *)
Definition north_moved : session_state (SH := Plane.lib) :=
  {| zones := [(JStr "North", south_zone "blue")]; last_upload_hash := None |}.

Definition list_payload : list byte := file_of (JArr [JNum 1; JNum 2]).

Definition collection_without_features : list byte :=
  file_of (JObj [("type", JStr "FeatureCollection")]).

Definition empty_object : list byte := file_of (JObj []).

Definition empty_collection : list byte := file_of (collection []).

(** A feature whose name is a list. *)
Definition listed_feature : json :=
  feature [("name", JArr [JStr "North"])] (square 0 0).

Definition south_green : list (string * json) :=
  [("geometry", square 5 5); ("color", JStr "green")].

Definition south_green_feature : json :=
  feature [("name", JStr "South"); ("color", JStr "green")] (square 5 5).

Definition north_file : list byte := file_of (collection [north_feature]).

(** The labels, geometries and colors of [north_south] with no members. *)
Definition north_south_bare : session_state (SH := Plane.lib) :=
  {| zones :=
       [(JStr "North",
         {| geometry := north_square : Geometry (Shapely := Plane.lib);
            data := {| columns := []; rows := [] |};
            count := 0; color := JStr "red" |});
        (JStr "South",
         {| geometry := south_square : Geometry (Shapely := Plane.lib);
            data := {| columns := []; rows := [] |};
            count := 0; color := JStr "blue" |})];
     last_upload_hash := Some 7 |}.

(** A customer table without address and sales columns. *)
Definition roster_short : frame Plane.pos :=
  {| columns := ["Customer ID"; "Latitude"; "Longitude"];
     rows := [ {| cells := ["A"; "0"; "0"]; pt := (0, 0) |} ] |}.

Definition north_saved_short : session_state :=
  script_run (SH := Plane.lib) (RT := Codec.lib) roster_short
             (draw_and_save (square 0 0) "North") fresh.

(** A drawing on the map and nothing else. *)
Definition look_at (g : json) : inputs :=
  {| uploaded := None; output := drawn g;
     label_text := "Zone 1"; save_clicked := false |}.

(** A file uploaded and a shape saved in the same run. *)
Definition upload_and_save (file : list byte) (g : json) (label : string)
  : inputs :=
  {| uploaded := Some file; output := drawn g;
     label_text := label; save_clicked := true |}.

End Demo.

(* ------------------------------------------------------------------ *)
(** ** Properties                                                       *)
(* ------------------------------------------------------------------ *)

(** Case analysis on the steps of a computation that ended in [Ok]. *)
Ltac bind_ok H :=
  repeat match type of H with
         | bind ?m _ = Ok _ =>
             let E := fresh "E" in
             destruct m eqn:E; [cbn [bind] in H | discriminate H]
         end.

Lemma key_eqb_refl (k : json) : hashable k = true -> key_eqb k k = true.
Proof.
  destruct k as [| b | n | s | l | l]; simpl; intros H; try discriminate H.
  - reflexivity.
  - apply Bool.eqb_reflx.
  - apply Z.eqb_refl.
  - apply String.eqb_refl.
Qed.

Lemma key_eqb_sym (a b : json) : key_eqb a b = key_eqb b a.
Proof.
  destruct a, b; simpl; try reflexivity.
  - destruct b0, b; reflexivity.
  - apply Z.eqb_sym.
  - apply String.eqb_sym.
Qed.

Lemma dict_set_Forall {V : Type} (Q : V -> Prop) (k : json) (v : V)
    (d : list (json * V)) :
  Forall (fun kv => Q (snd kv)) d -> Q v ->
  Forall (fun kv => Q (snd kv)) (dict_set k v d).
Proof.
  intros Hd Hv. induction d as [| [k' v'] d IH]; simpl.
  - constructor; [exact Hv | constructor].
  - inversion Hd as [| ? ? Hhd Htl]; subst.
    destruct (key_eqb k' k).
    + constructor; [exact Hv | exact Htl].
    + constructor; [exact Hhd | apply IH; exact Htl].
Qed.

Lemma dict_get_set {V : Type} (k : json) (v : V) (d : list (json * V)) :
  hashable k = true -> dict_get k (dict_set k v d) = Some v.
Proof.
  intros Hk. induction d as [| [k' v'] d IH]; simpl.
  - rewrite key_eqb_refl by exact Hk. reflexivity.
  - destruct (key_eqb k' k) eqn:E; simpl; rewrite E; [reflexivity | exact IH].
Qed.

Lemma dict_set_keys {V : Type} (Q : json -> Prop) (k : json) (v : V)
    (d : list (json * V)) :
  Forall (fun kv => Q (fst kv)) d -> Q k ->
  Forall (fun kv => Q (fst kv)) (dict_set k v d).
Proof.
  intros Hd Hk. induction d as [| [k' v'] d IH]; simpl.
  - constructor; [exact Hk | constructor].
  - inversion Hd as [| ? ? Hhd Htl]; subst.
    destruct (key_eqb k' k).
    + constructor; [exact Hhd | exact Htl].
    + constructor; [exact Hhd | apply IH; exact Htl].
Qed.

Lemma dict_set_distinct {V : Type} (k : json) (v : V) (d : list (json * V)) :
  distinct_keys d -> distinct_keys (dict_set k v d).
Proof.
  induction d as [| [k' v'] d IH]; simpl.
  - intros _. split; [constructor | exact I].
  - intros [Hhd Htl]. destruct (key_eqb k' k) eqn:E; simpl.
    + split; assumption.
    + split; [| apply IH; exact Htl].
      apply dict_set_keys with (Q := fun x => key_eqb x k' = false).
      * exact Hhd.
      * rewrite key_eqb_sym. exact E.
Qed.

Lemma dict_set_new {V : Type} (k : json) (v : V) (d : list (json * V)) :
  Forall (fun kv => key_eqb (fst kv) k = false) d ->
  dict_set k v d = (d ++ [(k, v)])%list.
Proof.
  induction 1 as [| [k' v'] d Hhd Htl IH]; simpl.
  - reflexivity.
  - simpl in Hhd. rewrite Hhd, IH. reflexivity.
Qed.

Section Properties.
Context {SH : Shapely} {RT : Runtime}.
Variable gdf : frame Point.

Lemma built_zone_ok (g : Geometry) (c : json) :
  zone_ok gdf {| geometry := g; data := inside_of gdf g;
             count := List.length (rows (inside_of gdf g)); color := c |}.
Proof. split; reflexivity. Qed.

Lemma setitem_ok (zs zs' : store) (k : json) (z : zone) :
  setitem zs k z = Ok zs' -> store_inv gdf zs -> zone_ok gdf z -> store_inv gdf zs'.
Proof.
  unfold setitem. destruct (hashable k); intros H [Hzs Hd] Hz; inversion H; subst.
  split.
  - apply dict_set_Forall with (Q := zone_ok gdf); assumption.
  - apply dict_set_distinct. exact Hd.
Qed.

Lemma import_feature_ok (feat : json) (zs zs' : store) :
  import_feature gdf feat zs = Ok zs' -> store_inv gdf zs -> store_inv gdf zs'.
Proof.
  unfold import_feature. intros H Hzs. bind_ok H.
  eapply setitem_ok; [exact H | exact Hzs | apply built_zone_ok].
Qed.

Lemma import_features_ok (feats : list json) :
  forall (zs : store) (n : nat),
    store_inv gdf zs -> store_inv gdf (fst (import_features gdf feats zs n)).
Proof.
  induction feats as [| feat rest IH]; intros zs n Hzs; simpl.
  - exact Hzs.
  - destruct (import_feature gdf feat zs) as [zs' | e] eqn:E; simpl.
    + apply IH. eapply import_feature_ok; eassumption.
    + exact Hzs.
Qed.

Lemma import_item_ok (label : string) (info : json) (zs zs' : store) :
  import_item gdf label info zs = Ok zs' -> store_inv gdf zs -> store_inv gdf zs'.
Proof.
  unfold import_item. intros H Hzs. bind_ok H.
  eapply setitem_ok; [exact H | exact Hzs | apply built_zone_ok].
Qed.

Lemma import_items_ok (items : list (string * json)) :
  forall zs : store, store_inv gdf zs -> store_inv gdf (fst (import_items gdf items zs)).
Proof.
  induction items as [| [label info] rest IH]; intros zs Hzs; simpl.
  - exact Hzs.
  - destruct (import_item gdf label info zs) as [zs' | e] eqn:E; simpl.
    + apply IH. eapply import_item_ok; eassumption.
    + exact Hzs.
Qed.

Lemma import_body_ok (file_bytes : list byte) (zs : store) :
  store_inv gdf zs -> store_inv gdf (fst (import_body gdf file_bytes zs)).
Proof.
  intros Hzs. unfold import_body.
  destruct (decode file_bytes) as [text |]; [| exact Hzs].
  destruct (json_loads text) as [data |]; [| exact Hzs].
  destruct (is_feature_collection data).
  - destruct (bind (getitem data "features") _) as [feats | e]; [| exact Hzs].
    pose proof (import_features_ok feats zs 0 Hzs) as H.
    destruct (import_features gdf feats zs 0) as [zs' r]. exact H.
  - destruct data as [| b | n | s | l | items]; try exact Hzs.
    pose proof (import_items_ok items zs Hzs) as H.
    destruct (import_items gdf items zs) as [zs' r]. exact H.
Qed.

Lemma import_block_ok (up : option (list byte)) (st : session_state) :
  store_inv gdf (zones st) -> store_inv gdf (zones (fst (import_block gdf up st))).
Proof.
  intros Hst. unfold import_block. destruct up as [file_bytes |]; [| exact Hst].
  destruct (hash_differs _ _); [| exact Hst].
  pose proof (import_body_ok file_bytes (zones st) Hst) as H.
  destruct (import_body gdf file_bytes (zones st)) as [zs r]. exact H.
Qed.

Lemma save_block_ok (out : json) (label : string) (clicked : bool)
    (st st' : session_state) (ns : list notice) :
  save_block gdf out label clicked st = Ok (st', ns) ->
  store_inv gdf (zones st) -> store_inv gdf (zones st').
Proof.
  unfold save_block. intros H Hst.
  destruct (truthy out); [| inversion H; subst; exact Hst].
  bind_ok H.
  destruct (truthy a); [| inversion H; subst; exact Hst].
  bind_ok H.
  destruct (negb _); [| inversion H; subst; exact Hst].
  destruct clicked; [| inversion H; subst; exact Hst].
  bind_ok H. inversion H; subst; simpl.
  eapply setitem_ok; [eassumption | exact Hst | apply built_zone_ok].
Qed.

Lemma script_run_ok (i : inputs) (st : session_state) :
  store_inv gdf (zones st) -> store_inv gdf (zones (script_run gdf i st)).
Proof.
  intros Hst. unfold script_run.
  pose proof (import_block_ok (uploaded i) st Hst) as H1.
  destruct (save_block gdf (output i) (label_text i) (save_clicked i) _)
    as [[st2 ns] | e] eqn:E.
  - eapply save_block_ok; eassumption.
  - exact H1.
Qed.

Lemma reachable_ok (st : session_state) :
  reachable gdf st -> store_inv gdf (zones st).
Proof.
  induction 1 as [| i st Hst IH].
  - split; [constructor | exact I].
  - apply script_run_ok. exact IH.
Qed.

(** C1.  In every state the script can reach, whichever of the three paths
    (drawn save, FeatureCollection import, legacy import) stored a zone:
    its members are the rows of the customer table whose point is
    [within] its geometry, in the order of the table, [count] is their
    number, and a customer of the table is a member exactly when its point
    is within the geometry. *)
Theorem members_are_the_customers_within (st : session_state)
    (label : json) (z : zone) :
  reachable gdf st ->
  In (label, z) (zones st) ->
  rows (data z) = filter (fun c => within (pt c) (geometry z)) (rows gdf)
  /\ count z = List.length (rows (data z))
  /\ forall c, In c (rows gdf) ->
               (In c (rows (data z)) <-> within (pt c) (geometry z) = true).
Proof.
  intros Hreach Hin.
  pose proof (proj1 (reachable_ok st Hreach)) as Hok.
  unfold store_ok in Hok. rewrite Forall_forall in Hok.
  destruct (Hok _ Hin) as [Hdata Hcount]. simpl in Hdata, Hcount.
  assert (Hrows : rows (data z)
                  = filter (fun c => within (pt c) (geometry z)) (rows gdf)).
  { rewrite Hdata. reflexivity. }
  split; [exact Hrows |]. split; [exact Hcount |].
  intros c Hc. rewrite Hrows, filter_In. tauto.
Qed.

(** C8.  In every state the script can reach, after any sequence of runs
    (imports, drawn saves, exports), the [count] of every stored zone is the
    number of its members. *)
Theorem count_is_number_of_members (st : session_state)
    (label : json) (z : zone) :
  reachable gdf st ->
  In (label, z) (zones st) ->
  count z = List.length (rows (data z)).
Proof.
  intros Hreach Hin.
  pose proof (proj1 (reachable_ok st Hreach)) as Hok.
  unfold store_ok in Hok. rewrite Forall_forall in Hok.
  exact (proj2 (Hok _ Hin)).
Qed.

(** C6.  A drawn save that stores a zone (the run reports "Saved ...")
    gives it the color [palette[N mod len(palette)]], where [N] is the
    number of zones in the store before the zone is put in and [palette] is
    red, blue, green, purple, orange. *)
Theorem drawn_zone_color_cycles (out : json) (label : string) (clicked : bool)
    (st st' : session_state) (msg : string) :
  save_block gdf out label clicked st = Ok (st', [st_success msg]) ->
  exists z,
    dict_get (JStr label) (zones st') = Some z
    /\ color z = JStr (nth (List.length (zones st) mod List.length palette)
                           palette "")
    /\ palette = ["red"; "blue"; "green"; "purple"; "orange"].
Proof.
  unfold save_block. intros H.
  destruct (truthy out); [| discriminate H].
  bind_ok H.
  destruct (truthy a); [| discriminate H].
  bind_ok H.
  destruct (negb _); [| discriminate H].
  destruct clicked; [| discriminate H].
  bind_ok H. inversion H; subst; clear H. simpl.
  unfold setitem in E2. simpl in E2. inversion E2; subst; clear E2.
  eexists. split; [apply dict_get_set; reflexivity |].
  split; reflexivity.
Qed.

(** C3.  When the drawn polygon [equals] the geometry of a zone already in
    the store, the save block offers neither label nor button: whatever the
    label and the button state, the session state stays as it is and nothing
    is reported. *)
Theorem duplicate_shape_is_not_saved (out : json) (label : string)
    (clicked : bool) (st : session_state) (drawing raw : json)
    (new_poly : Geometry) (lz : json * zone) :
  get out "last_active_drawing" JNull = Ok drawing ->
  getitem drawing "geometry" = Ok raw ->
  shape raw = Some new_poly ->
  In lz (zones st) ->
  equals new_poly (geometry (snd lz)) = true ->
  save_block gdf out label clicked st = Ok (st, []).
Proof.
  intros Hget Hitem Hshape Hin Heq. unfold save_block.
  destruct (truthy out); [| reflexivity].
  rewrite Hget. cbn [bind].
  destruct (truthy drawing); [| reflexivity].
  rewrite Hitem. cbn [bind]. rewrite Hshape. cbn [of_option bind].
  assert (Hex : existsb (fun z => equals new_poly (geometry z))
                        (map snd (zones st)) = true).
  { apply existsb_exists. exists (snd lz). split; [| exact Heq].
    apply in_map. exact Hin. }
  rewrite Hex. reflexivity.
Qed.

Lemma hash_differs_same (h : Z) : hash_differs h (Some h) = false.
Proof. unfold hash_differs. rewrite Z.eqb_refl. reflexivity. Qed.

Lemma import_block_fingerprint (file_bytes : list byte) (st : session_state) :
  last_upload_hash (fst (import_block gdf (Some file_bytes) st))
  = Some (hash file_bytes).
Proof.
  unfold import_block.
  destruct (hash_differs (hash file_bytes) (last_upload_hash st)) eqn:E.
  - destruct (import_body gdf file_bytes (zones st)) as [zs r]. reflexivity.
  - simpl. unfold hash_differs in E.
    destruct (last_upload_hash st) as [h |]; [| discriminate E].
    apply negb_false_iff, Z.eqb_eq in E. subst. reflexivity.
Qed.

Lemma import_block_again (file_bytes : list byte) (st : session_state) :
  last_upload_hash st = Some (hash file_bytes) ->
  import_block gdf (Some file_bytes) st
  = (st, [st_info "This file has already been imported."]).
Proof.
  intros H. unfold import_block. rewrite H, hash_differs_same. reflexivity.
Qed.

(** C4.  The same bytes submitted twice in a row: the second submission finds
    the fingerprint of the bytes stored, does no processing, leaves the
    session state (zones and fingerprint) as the first left it, and reports
    "already imported", not an error. *)
Theorem second_submission_is_skipped (file_bytes : list byte)
    (st : session_state) :
  import_block gdf (Some file_bytes) (fst (import_block gdf (Some file_bytes) st))
  = (fst (import_block gdf (Some file_bytes) st),
     [st_info "This file has already been imported."]).
Proof. apply import_block_again, import_block_fingerprint. Qed.

(** C10.  After any submission the stored fingerprint is the hash of the
    bytes submitted, whether the import succeeded or failed; it is stored
    before the bytes are decoded and parsed, so bytes that cannot be read
    leave the zones as they were with the new fingerprint; and when a
    submission failed, the same bytes submitted again are skipped as already
    imported. *)
Theorem fingerprint_is_set_before_parsing (file_bytes : list byte)
    (st : session_state) :
  last_upload_hash (fst (import_block gdf (Some file_bytes) st))
  = Some (hash file_bytes)
  /\ (hash_differs (hash file_bytes) (last_upload_hash st) = true ->
      (decode file_bytes = None
       \/ exists text, decode file_bytes = Some text /\ json_loads text = None) ->
      import_block gdf (Some file_bytes) st
      = ({| zones := zones st; last_upload_hash := Some (hash file_bytes) |},
         [st_error ValueError]))
  /\ (forall (st1 : session_state) (e : exn),
        import_block gdf (Some file_bytes) st = (st1, [st_error e]) ->
        import_block gdf (Some file_bytes) st1
        = (st1, [st_info "This file has already been imported."])).
Proof.
  split; [apply import_block_fingerprint |]. split.
  - intros Hd Hbad. unfold import_block. rewrite Hd. unfold import_body.
    destruct Hbad as [Hdec | [text [Hdec Hload]]]; rewrite Hdec.
    + reflexivity.
    + rewrite Hload. reflexivity.
  - intros st1 e H. apply import_block_again.
    pose proof (import_block_fingerprint file_bytes st) as Hf.
    rewrite H in Hf. exact Hf.
Qed.

Lemma import_features_app (pre post : list json) :
  forall (zs : store) (n : nat),
    import_features gdf (pre ++ post) zs n
    = match import_features gdf pre zs n with
      | (zs1, Ok m) => import_features gdf post zs1 m
      | (zs1, Raise e) => (zs1, Raise e)
      end.
Proof.
  induction pre as [| feat pre IH]; intros zs n; simpl.
  - reflexivity.
  - destruct (import_feature gdf feat zs) as [zs' | e]; [apply IH | reflexivity].
Qed.

(** C5, as the script has it.  The record loop of a FeatureCollection import
    runs inside one [try]: the first record that raises ends the import.  The
    zones of the records before it are in the store and stay there, the
    failing record and every record after it are not processed, and the run
    reports one error and no count. *)
Theorem import_ends_at_first_failing_record (file_bytes : list byte)
    (st : session_state) (text : string) (data : json)
    (pre post : list json) (bad : json) (zs1 : store) (m : nat) (e : exn) :
  hash_differs (hash file_bytes) (last_upload_hash st) = true ->
  decode file_bytes = Some text ->
  json_loads text = Some data ->
  is_feature_collection data = true ->
  getitem data "features" = Ok (JArr (pre ++ bad :: post)) ->
  import_features gdf pre (zones st) 0 = (zs1, Ok m) ->
  import_feature gdf bad zs1 = Raise e ->
  import_block gdf (Some file_bytes) st
  = ({| zones := zs1; last_upload_hash := Some (hash file_bytes) |},
     [st_error e]).
Proof.
  intros Hd Hdec Hload Hfc Hfeats Hpre Hbad.
  unfold import_block. rewrite Hd. unfold import_body.
  rewrite Hdec, Hload, Hfc, Hfeats. cbn [bind iter].
  rewrite import_features_app, Hpre. simpl. rewrite Hbad. reflexivity.
Qed.

(** C7, as the script has it.  An import record that names no color, in the
    legacy form or in a FeatureCollection, gets the color "red", whatever the
    number of zones in the store. *)
Theorem import_default_color_is_red :
  (forall (label : string) (entry : list (string * json)) (zs zs' : store),
      import_item gdf label (JObj entry) zs = Ok zs' ->
      lookup "color" entry = None ->
      exists z, dict_get (JStr label) zs' = Some z /\ color z = JStr "red")
  /\ (forall (feat : json) (props : list (string * json)) (zs zs' : store),
         import_feature gdf feat zs = Ok zs' ->
         get feat "properties" (JObj []) = Ok (JObj props) ->
         lookup "color" props = None ->
         exists label z,
           get (JObj props) "name"
               (JStr ("Zone " ++ str_nat (List.length zs + 1))) = Ok label
           /\ dict_get label zs' = Some z /\ color z = JStr "red").
Proof.
  split.
  - intros label entry zs zs' H Hnone. unfold import_item in H.
    bind_ok H. simpl in E1. rewrite Hnone in E1. inversion E1; subst; clear E1.
    unfold setitem in H. simpl in H. inversion H; subst; clear H.
    eexists. split; [apply dict_get_set; reflexivity | reflexivity].
  - intros feat props zs zs' H Hprops Hnone. unfold import_feature in H.
    bind_ok H. inversion Hprops; subst; clear Hprops.
    simpl in E3. rewrite Hnone in E3. inversion E3; subst; clear E3.
    unfold setitem in H. destruct (hashable a2) eqn:Hh; [| discriminate H].
    inversion H; subst; clear H.
    exists a2. eexists. split; [exact E2 |].
    split; [apply dict_get_set; exact Hh | reflexivity].
Qed.

Lemma summary_block_items (zs : store) :
  forall items : list summary_item,
    summary_block zs = Ok items ->
    Forall2 (fun lz item => summary_of (fst lz) (snd lz) = Ok item) zs items.
Proof.
  induction zs as [| [label z] zs IH]; intros items H; simpl in H.
  - inversion H. constructor.
  - bind_ok H. inversion H; subst; clear H.
    constructor; [exact E | apply IH; reflexivity].
Qed.

(** C9, as the script has it.  For every zone of a reachable store the
    summary offers a download whose text is [to_csv] of the zone's whole
    member frame: one row per member, in order, under every column of the
    customer table followed by the geometry column; the file is named
    [{label}_Customers_{VERSION}.csv].  The four-column selection is what the
    page displays, not what the file holds. *)
Theorem zone_download_is_the_member_frame (st : session_state)
    (items : list summary_item) :
  reachable gdf st ->
  summary_block (zones st) = Ok items ->
  Forall2 (fun lz item =>
             let written := as_table wkt (data (snd lz)) in
             content (csv item) = to_csv written
             /\ header written = (columns gdf ++ ["geometry"])%list
             /\ body written
                = map (fun c => (cells c ++ [wkt (pt c)])%list)
                      (filter (fun c => within (pt c) (geometry (snd lz)))
                              (rows gdf))
             /\ file_name (csv item)
                = str (fst lz) ++ "_Customers_" ++ VERSION ++ ".csv"
             /\ select shown_columns (data (snd lz)) = Ok (shown item))
          (zones st) items.
Proof.
  intros Hreach Hsum.
  pose proof (proj1 (reachable_ok st Hreach)) as Hok. unfold store_ok in Hok.
  apply summary_block_items in Hsum.
  induction Hsum as [| [label z] item zs items' Hitem Hrest IH].
  - constructor.
  - inversion Hok as [| ? ? Hz Hzs]; subst.
    constructor; [| apply IH; exact Hzs].
    simpl in *. unfold summary_of in Hitem. bind_ok Hitem.
    inversion Hitem; subst; clear Hitem. simpl.
    destruct Hz as [Hdata Hcount].
    repeat split; try reflexivity.
    + rewrite Hdata. reflexivity.
    + rewrite Hdata. reflexivity.
Qed.

Lemma exported_is_legacy (zs : store) :
  is_feature_collection (as_object (export_data zs)) = false.
Proof.
  unfold is_feature_collection, as_object, export_data.
  induction zs as [| [k z] zs IH]; simpl.
  - reflexivity.
  - destruct (key_text k =? "type"); [reflexivity | exact IH].
Qed.

Lemma within_same_members (g g' : Geometry) :
  (forall r, In r (rows gdf) -> within (pt r) g' = within (pt r) g) ->
  inside_of gdf g' = inside_of gdf g.
Proof.
  intros H. unfold inside_of, mask_rows. f_equal.
  apply filter_ext_in. exact H.
Qed.

(** The legacy loop on the items of an export, started on a store that
    holds none of the labels: every zone comes back, in order, behind the
    zones already there. *)
Lemma import_exported_items (zs : store) :
  forall acc : store,
    Forall (fun lz => text_label (fst lz)) zs ->
    distinct_keys zs ->
    Forall (fun lz => zone_ok gdf (snd lz) /\ geometry_round_trips gdf (snd lz)) zs ->
    Forall (fun lz => Forall (fun kv => key_eqb (fst kv) (fst lz) = false) acc) zs ->
    exists zs' : store,
      import_items gdf
        (map (fun kv => (key_text (fst kv), snd kv)) (export_data zs)) acc
      = ((acc ++ zs')%list, Ok tt)
      /\ map fst zs' = map fst zs
      /\ Forall2 (fun lz lz' => same_zone gdf (snd lz) (snd lz')) zs zs'.
Proof.
  induction zs as [| [k z] zs IH]; intros acc Htext Hdist Hzs Hacc.
  - exists []. simpl. rewrite app_nil_r. repeat split; constructor.
  - inversion Htext as [| ? ? [s Hs] Htext']; subst. simpl in Hs. subst k.
    destruct Hdist as [Hk Hdist'].
    inversion Hzs as [| ? ? [[Hdata Hcount] [g' [Hshape [Heq Hwithin]]]] Hzs']; subst.
    inversion Hacc as [| ? ? Hnew Hacc']; subst. simpl in *.
    unfold import_item. simpl. rewrite Hshape. simpl.
    rewrite (dict_set_new _ _ _ Hnew).
    set (z' := {| geometry := g'; data := inside_of gdf g';
                  count := List.length (rows (inside_of gdf g'));
                  color := color z |}).
    destruct (IH (acc ++ [(JStr s, z')])%list Htext' Hdist' Hzs') as [zs' [Hrun [Hkeys Hsame]]].
    { rewrite Forall_forall in *. intros lz Hlz.
      apply Forall_app. split; [apply Hacc'; exact Hlz |].
      constructor; [| constructor]. cbn [fst].
      rewrite key_eqb_sym. apply (Hk lz Hlz). }
    exists ((JStr s, z') :: zs'). split; [| split].
    + rewrite <- app_assoc in Hrun. exact Hrun.
    + simpl. rewrite Hkeys. reflexivity.
    + constructor; [| exact Hsame]. simpl.
      assert (Hmem : inside_of gdf g' = inside_of gdf (geometry z))
        by (apply within_same_members; exact Hwithin).
      unfold same_zone, z'; simpl.
      repeat split; try assumption; try reflexivity.
      * rewrite Hmem. symmetry. exact Hdata.
      * rewrite Hcount, Hdata, <- Hmem. reflexivity.
Qed.

(** C2, as the script has it.  For a reachable store whose labels are all
    text: when the export is offered (the store is not empty), its text read
    back by the decoder and [json.loads] is the object that was written, and
    every geometry survives [mapping] then [shape], importing the exported
    file in a new session gives the same labels in the same order, geometries
    that are [equals] to the stored ones, the same colors, and members
    computed afresh from the customer table that are the members of the
    exported store. *)
Theorem export_then_import_rebuilds_text_labelled_store (st : session_state)
    (d : download) :
  reachable gdf st ->
  Forall (fun lz => text_label (fst lz)) (zones st) ->
  Forall (fun lz => geometry_round_trips gdf (snd lz)) (zones st) ->
  export_block st = Some d ->
  decode (encode (content d)) = Some (content d) ->
  json_loads (content d) = Some (as_object (export_data (zones st))) ->
  exists (st' : session_state) (msg : string),
    import_block gdf (Some (encode (content d))) fresh = (st', [st_success msg])
    /\ map fst (zones st') = map fst (zones st)
    /\ Forall2 (fun lz lz' => same_zone gdf (snd lz) (snd lz'))
               (zones st) (zones st').
Proof.
  intros Hreach Htext Htrip Hexp Hdec Hload.
  destruct (reachable_ok st Hreach) as [Hok Hdist].
  destruct (import_exported_items (zones st) [] Htext Hdist) as [zs' [Hrun [Hkeys Hsame]]].
  { unfold store_ok in Hok. rewrite Forall_forall in *.
    intros lz Hlz. split; [apply Hok | apply Htrip]; exact Hlz. }
  { rewrite Forall_forall. intros lz _. constructor. }
  unfold import_block, fresh. simpl. unfold import_body.
  rewrite Hdec, Hload, exported_is_legacy. unfold as_object at 1.
  rewrite Hrun. simpl.
  eexists. eexists. split; [reflexivity |]. simpl. split; assumption.
Qed.

End Properties.

(* ------------------------------------------------------------------ *)
(** ** Further behaviour of the script                                  *)
(* ------------------------------------------------------------------ *)

Lemma key_eqb_trans (a b c : json) :
  key_eqb a b = true -> key_eqb b c = true -> key_eqb a c = true.
Proof.
  destruct a as [| [] | n | s | l | l], b as [| [] | m | t | l' | l'],
           c as [| [] | p | u | l'' | l'']; simpl;
    try discriminate; try reflexivity;
    rewrite ?Z.eqb_eq, ?String.eqb_eq; intros; subst;
    try reflexivity; try discriminate;
    try apply Z.eqb_refl; try apply String.eqb_refl.
Qed.

Lemma dict_get_set_other {V : Type} (k k' : json) (v : V) (d : list (json * V)) :
  key_eqb k' k = false -> dict_get k (dict_set k' v d) = dict_get k d.
Proof.
  intros H. induction d as [| [k0 v0] d IH]; simpl.
  - rewrite H. reflexivity.
  - destruct (key_eqb k0 k') eqn:E; simpl.
    + destruct (key_eqb k0 k) eqn:E2; [| reflexivity].
      rewrite key_eqb_sym in E.
      rewrite (key_eqb_trans k' k0 k E E2) in H. discriminate H.
    + destruct (key_eqb k0 k); [reflexivity | exact IH].
Qed.

Lemma dict_set_same {V : Type} (k : json) (v : V) (d : list (json * V)) :
  dict_get k d = Some v -> dict_set k v d = d.
Proof.
  induction d as [| [k0 v0] d IH]; simpl; intros H.
  - discriminate H.
  - destruct (key_eqb k0 k).
    + inversion H. reflexivity.
    + rewrite IH by exact H. reflexivity.
Qed.

Lemma dict_set_labels {V : Type} (k : json) (v : V) (d : list (json * V)) :
  map fst (dict_set k v d)
  = match dict_get k d with
    | Some _ => map fst d
    | None => (map fst d ++ [k])%list
    end.
Proof.
  induction d as [| [k0 v0] d IH]; simpl.
  - reflexivity.
  - destruct (key_eqb k0 k); simpl; [reflexivity |].
    rewrite IH. destruct (dict_get k d); reflexivity.
Qed.

Lemma dict_set_length {V : Type} (k : json) (v : V) (d : list (json * V)) :
  (List.length d <= List.length (dict_set k v d) <= S (List.length d))%nat.
Proof.
  induction d as [| [k0 v0] d IH]; simpl.
  - lia.
  - destruct (key_eqb k0 k); simpl; lia.
Qed.

Lemma index_of_none (c : string) (cols : list string) :
  index_of c cols = None <-> ~ In c cols.
Proof.
  induction cols as [| c' cols IH]; simpl.
  - tauto.
  - destruct (c' =? c) eqn:E.
    + apply String.eqb_eq in E. split; [discriminate | tauto].
    + apply String.eqb_neq in E.
      destruct (index_of c cols) as [i |].
      * split; [discriminate |]. intros H. exfalso.
        assert (Hi : Some i = None) by (apply IH; tauto). discriminate Hi.
      * split; [| reflexivity]. intros _.
        assert (Hc : ~ In c cols) by (apply IH; reflexivity). tauto.
Qed.

Lemma indices_found (want cols : list string) :
  (forall c, In c want -> In c cols) ->
  exists ixs, indices want cols = Ok ixs /\ List.length ixs = List.length want.
Proof.
  induction want as [| c want IH]; intros H; simpl.
  - exists []. split; reflexivity.
  - destruct (index_of c cols) as [i |] eqn:E.
    + destruct IH as [ixs [Hixs Hlen]]; [intros c' Hc'; apply H; right; exact Hc' |].
      rewrite Hixs. exists (i :: ixs). simpl. rewrite Hlen. split; reflexivity.
    + apply index_of_none in E. exfalso. apply E, H. left. reflexivity.
Qed.

Lemma indices_missing (c : string) (want cols : list string) :
  In c want -> ~ In c cols -> indices want cols = Raise KeyError.
Proof.
  induction want as [| c0 want IH]; intros Hin Hc; simpl.
  - destruct Hin.
  - destruct (index_of c0 cols) as [i |] eqn:E; [| reflexivity].
    cbn [of_option bind]. destruct Hin as [-> | Hin].
    + apply index_of_none in Hc. rewrite Hc in E. discriminate E.
    + rewrite (IH Hin Hc). reflexivity.
Qed.

Lemma palette_pick (n : nat) :
  In (nth (n mod List.length palette) palette "") palette.
Proof. apply nth_In. apply Nat.mod_upper_bound. discriminate. Qed.

Section Behaviour.
Context {SH : Shapely} {RT : Runtime}.
Variable gdf : frame Point.

(** *** What every step keeps *)

Section Kept.
Variable P : store -> Prop.
Hypothesis P_set :
  forall (zs : store) (k : json) (z : zone),
    hashable k = true -> P zs -> P (dict_set k z zs).

Lemma setitem_keeps (zs zs' : store) (k : json) (z : zone) :
  setitem zs k z = Ok zs' -> P zs -> P zs'.
Proof.
  unfold setitem. destruct (hashable k) eqn:E; intros H Hzs; inversion H; subst.
  apply P_set; assumption.
Qed.

Lemma import_features_keep (feats : list json) :
  forall (zs : store) (n : nat),
    P zs -> P (fst (import_features gdf feats zs n)).
Proof.
  induction feats as [| feat rest IH]; intros zs n Hzs; simpl.
  - exact Hzs.
  - destruct (import_feature gdf feat zs) as [zs' | e] eqn:E; simpl.
    + apply IH. unfold import_feature in E. bind_ok E.
      eapply setitem_keeps; eassumption.
    + exact Hzs.
Qed.

Lemma import_items_keep (items : list (string * json)) :
  forall zs : store, P zs -> P (fst (import_items gdf items zs)).
Proof.
  induction items as [| [label info] rest IH]; intros zs Hzs; simpl.
  - exact Hzs.
  - destruct (import_item gdf label info zs) as [zs' | e] eqn:E; simpl.
    + apply IH. unfold import_item in E. bind_ok E.
      eapply setitem_keeps; eassumption.
    + exact Hzs.
Qed.

Lemma import_block_keeps (up : option (list byte)) (st : session_state) :
  P (zones st) -> P (zones (fst (import_block gdf up st))).
Proof.
  intros Hst. unfold import_block. destruct up as [file_bytes |]; [| exact Hst].
  destruct (hash_differs _ _); [| exact Hst].
  assert (H : P (fst (import_body gdf file_bytes (zones st)))).
  { unfold import_body.
    destruct (decode file_bytes) as [text |]; [| exact Hst].
    destruct (json_loads text) as [data |]; [| exact Hst].
    destruct (is_feature_collection data).
    - destruct (bind (getitem data "features") _) as [feats | e]; [| exact Hst].
      pose proof (import_features_keep feats (zones st) 0 Hst) as H.
      destruct (import_features gdf feats (zones st) 0) as [zs' r]. exact H.
    - destruct data as [| b | n | s | l | items]; try exact Hst.
      pose proof (import_items_keep items (zones st) Hst) as H.
      destruct (import_items gdf items (zones st)) as [zs' r]. exact H. }
  destruct (import_body gdf file_bytes (zones st)) as [zs r]. exact H.
Qed.

Lemma save_block_keeps (out : json) (label : string) (clicked : bool)
    (st st' : session_state) (ns : list notice) :
  save_block gdf out label clicked st = Ok (st', ns) ->
  P (zones st) -> P (zones st').
Proof.
  unfold save_block. intros H Hst.
  destruct (truthy out); [| inversion H; subst; exact Hst].
  bind_ok H.
  destruct (truthy a); [| inversion H; subst; exact Hst].
  bind_ok H.
  destruct (negb _); [| inversion H; subst; exact Hst].
  destruct clicked; [| inversion H; subst; exact Hst].
  bind_ok H. inversion H; subst; simpl.
  eapply setitem_keeps; eassumption.
Qed.

Lemma script_run_keeps (i : inputs) (st : session_state) :
  P (zones st) -> P (zones (script_run gdf i st)).
Proof.
  intros Hst. unfold script_run.
  pose proof (import_block_keeps (uploaded i) st Hst) as H1.
  destruct (save_block gdf (output i) (label_text i) (save_clicked i) _)
    as [[st2 ns] | e] eqn:E.
  - eapply save_block_keeps; eassumption.
  - exact H1.
Qed.

End Kept.

(** X1.  In every state the script can reach, the labels of the store are
    values a dict accepts as keys, and no two of them compare equal. *)
Theorem labels_are_unique (st : session_state) :
  reachable gdf st ->
  Forall (fun lz => hashable (fst lz) = true) (zones st)
  /\ distinct_keys (zones st).
Proof.
  intros Hreach. split; [| exact (proj2 (reachable_ok gdf st Hreach))].
  induction Hreach as [| i st Hst IH].
  - constructor.
  - apply script_run_keeps; [| exact IH].
    intros zs k z Hk Hzs.
    apply dict_set_keys with (Q := fun x => hashable x = true); assumption.
Qed.

(** X2.  A run of the script never removes a zone and never moves one: the
    labels of the store before the run are the first labels of the store
    after it, in the same order. *)
Theorem run_never_removes_a_zone (i : inputs) (st : session_state) :
  exists extra : list json,
    map fst (zones (script_run gdf i st)) = (map fst (zones st) ++ extra)%list.
Proof.
  apply script_run_keeps
    with (P := fun zs => exists extra, map fst zs = (map fst (zones st) ++ extra)%list).
  - intros zs k z _ [extra Hzs]. rewrite dict_set_labels.
    destruct (dict_get k zs).
    + exists extra. exact Hzs.
    + exists (extra ++ [k])%list. rewrite Hzs, app_assoc. reflexivity.
  - exists []. rewrite app_nil_r. reflexivity.
Qed.

(** *** Drawn save *)

(** X3.  A drawn save that stores a zone leaves the upload fingerprint alone,
    puts the zone under the label typed - in the place of the zone that had
    this label, or behind all zones when the label is new - reports its
    member count, and leaves the zone of every other label as it was. *)
Theorem save_replaces_in_place_or_appends (out : json) (label : string)
    (clicked : bool) (st st' : session_state) (msg : string) :
  save_block gdf out label clicked st = Ok (st', [st_success msg]) ->
  last_upload_hash st' = last_upload_hash st
  /\ map fst (zones st')
     = match dict_get (JStr label) (zones st) with
       | Some _ => map fst (zones st)
       | None => (map fst (zones st) ++ [JStr label])%list
       end
  /\ (exists z, dict_get (JStr label) (zones st') = Some z
                /\ msg = "Saved " ++ label ++ " with " ++ str_nat (count z)
                          ++ " customers.")
  /\ (forall k, key_eqb (JStr label) k = false ->
                dict_get k (zones st') = dict_get k (zones st)).
Proof.
  unfold save_block. intros H.
  destruct (truthy out); [| discriminate H].
  bind_ok H.
  destruct (truthy a); [| discriminate H].
  bind_ok H.
  destruct (negb _); [| discriminate H].
  destruct clicked; [| discriminate H].
  bind_ok H. inversion H; subst; clear H. simpl.
  unfold setitem in E2. simpl in E2. inversion E2; subst; clear E2.
  split; [reflexivity |]. split; [apply dict_set_labels |]. split.
  - eexists. split; [apply dict_get_set; reflexivity | reflexivity].
  - intros k Hk. apply dict_get_set_other. exact Hk.
Qed.

(** X4.  A run in which no file is uploaded and the save button is not
    pressed leaves the session state as it was, whatever is drawn on the map,
    even when the drawing cannot be read. *)
Theorem idle_run_changes_nothing (i : inputs) (st : session_state) :
  uploaded i = None ->
  save_clicked i = false ->
  script_run gdf i st = st.
Proof.
  intros Hup Hclick. unfold script_run. rewrite Hup, Hclick. simpl.
  unfold save_block.
  destruct (truthy (output i)); [| reflexivity].
  destruct (get (output i) "last_active_drawing" JNull) as [drawing | e];
    [| reflexivity]. cbn [bind].
  destruct (truthy drawing); [| reflexivity].
  destruct (getitem drawing "geometry") as [raw | e]; [| reflexivity].
  cbn [bind].
  destruct (of_option GeometryError (shape raw)) as [new_poly | e];
    [| reflexivity]. cbn [bind].
  destruct (negb _); reflexivity.
Qed.

(** X19.  The color of a drawn zone is always one of the five colors of the
    palette: the index computed from the store size never leaves the list. *)
Theorem drawn_zone_color_is_in_palette (out : json) (label : string)
    (clicked : bool) (st st' : session_state) (msg : string) :
  save_block gdf out label clicked st = Ok (st', [st_success msg]) ->
  exists (z : zone) (c : string),
    dict_get (JStr label) (zones st') = Some z
    /\ color z = JStr c
    /\ In c palette.
Proof.
  unfold save_block. intros H.
  destruct (truthy out); [| discriminate H].
  bind_ok H.
  destruct (truthy a); [| discriminate H].
  bind_ok H.
  destruct (negb _); [| discriminate H].
  destruct clicked; [| discriminate H].
  bind_ok H. inversion H; subst; clear H. cbn [zones].
  unfold setitem in E2. cbn [hashable] in E2. inversion E2; subst; clear E2.
  eexists.
  exists (nth (List.length (zones st) mod List.length palette) palette "").
  split; [apply dict_get_set; reflexivity |].
  split; [reflexivity |].
  apply palette_pick.
Qed.

(** X20.  The save block looks at the store the import block of the same run
    has left: a drawing that [equals] the geometry of a zone imported in this
    very run is not saved, and the run ends in the state the import left. *)
Theorem shape_imported_in_the_same_run_is_not_saved (i : inputs)
    (st : session_state) (drawing raw : json) (new_poly : Geometry)
    (lz : json * zone) :
  get (output i) "last_active_drawing" JNull = Ok drawing ->
  getitem drawing "geometry" = Ok raw ->
  shape raw = Some new_poly ->
  In lz (zones (fst (import_block gdf (uploaded i) st))) ->
  equals new_poly (geometry (snd lz)) = true ->
  script_run gdf i st = fst (import_block gdf (uploaded i) st).
Proof.
  intros Hget Hitem Hshape Hin Heq. unfold script_run, save_block.
  destruct (truthy (output i)); [| reflexivity].
  rewrite Hget. cbn [bind].
  destruct (truthy drawing); [| reflexivity].
  rewrite Hitem. cbn [bind]. rewrite Hshape. cbn [of_option bind].
  assert (Hex : existsb (fun z => equals new_poly (geometry z))
                  (map snd (zones (fst (import_block gdf (uploaded i) st))))
                = true).
  { apply existsb_exists. exists (snd lz). split; [| exact Heq].
    apply in_map. exact Hin. }
  rewrite Hex. reflexivity.
Qed.

(** *** Import *)

(** X5.  A feature that is imported is stored under the value of its
    [name] property, or under "Zone N+1" (N the number of zones at that
    moment) when it has none; the zone replaces the one that had this label,
    in its place, or goes behind all zones; every other label keeps its
    zone. *)
Theorem feature_is_stored_under_its_name (feat : json) (zs zs' : store) :
  import_feature gdf feat zs = Ok zs' ->
  exists (props label : json) (z : zone),
    get feat "properties" (JObj []) = Ok props
    /\ get props "name" (JStr ("Zone " ++ str_nat (List.length zs + 1))) = Ok label
    /\ dict_get label zs' = Some z
    /\ map fst zs'
       = match dict_get label zs with
         | Some _ => map fst zs
         | None => (map fst zs ++ [label])%list
         end
    /\ (forall k, key_eqb label k = false -> dict_get k zs' = dict_get k zs).
Proof.
  unfold import_feature. intros H. bind_ok H.
  unfold setitem in H. destruct (hashable a2) eqn:Hh; [| discriminate H].
  inversion H; subst; clear H.
  exists a1, a2. eexists. split; [reflexivity |]. split; [exact E2 |].
  split; [apply dict_get_set; exact Hh |].
  split; [apply dict_set_labels |].
  intros k Hk. apply dict_get_set_other. exact Hk.
Qed.

Lemma import_item_cases (label : string) (info : json) :
  (exists z : zone,
      zone_ok gdf z
      /\ forall zs, import_item gdf label info zs = Ok (dict_set (JStr label) z zs))
  \/ (exists e : exn, forall zs, import_item gdf label info zs = Raise e).
Proof.
  unfold import_item.
  destruct (get info "geometry" (JObj [])) as [raw | e]; [| right; exists e; reflexivity].
  cbn [bind].
  destruct (of_option GeometryError (shape raw)) as [g | e];
    [| right; exists e; reflexivity].
  cbn [bind].
  destruct (get info "color" (JStr "red")) as [c | e]; [| right; exists e; reflexivity].
  cbn [bind]. left. eexists. split; [apply built_zone_ok |].
  intros zs. reflexivity.
Qed.

(** X6.  An entry of a legacy payload that is imported is stored under its
    key: in the place of the zone that had this label, or behind all zones;
    every other label keeps its zone. *)
Theorem item_is_stored_under_its_key (label : string) (info : json)
    (zs zs' : store) :
  import_item gdf label info zs = Ok zs' ->
  (exists z, dict_get (JStr label) zs' = Some z)
  /\ map fst zs'
     = match dict_get (JStr label) zs with
       | Some _ => map fst zs
       | None => (map fst zs ++ [JStr label])%list
       end
  /\ (forall k, key_eqb (JStr label) k = false -> dict_get k zs' = dict_get k zs).
Proof.
  intros H. destruct (import_item_cases label info) as [[z [_ Hz]] | [e He]].
  - rewrite Hz in H. inversion H; subst; clear H.
    split; [exists z; apply dict_get_set; reflexivity |].
    split; [apply dict_set_labels |].
    intros k Hk. apply dict_get_set_other. exact Hk.
  - rewrite He in H. discriminate H.
Qed.

(** X7.  When every feature of a collection is imported, the number reported
    is the number of features, and the store has grown by at most that many
    zones (by fewer when labels repeat or were there before). *)
Theorem imported_count_is_number_of_features (feats : list json) :
  forall (zs zs' : store) (n m : nat),
    import_features gdf feats zs n = (zs', Ok m) ->
    m = n + List.length feats
    /\ List.length zs <= List.length zs' <= List.length zs + List.length feats.
Proof.
  induction feats as [| feat rest IH]; intros zs zs' n m H; simpl in H.
  - inversion H; subst. simpl. lia.
  - destruct (import_feature gdf feat zs) as [zs1 | e] eqn:E; [| discriminate H].
    destruct (IH _ _ _ _ H) as [Hm Hlen].
    assert (Hstep : List.length zs <= List.length zs1 <= S (List.length zs)).
    { unfold import_feature in E. bind_ok E.
      unfold setitem in E. destruct (hashable a2); [| discriminate E].
      inversion E. apply dict_set_length. }
    simpl. lia.
Qed.

(** X8.  A payload that is JSON but not an object (a list, a number, a
    string, null) fails as a whole: the zones stay as they were, the
    fingerprint is the one of the payload, one error is reported. *)
Theorem payload_must_be_an_object (file_bytes : list byte)
    (st : session_state) (text : string) (data : json) :
  hash_differs (hash file_bytes) (last_upload_hash st) = true ->
  decode file_bytes = Some text ->
  json_loads text = Some data ->
  (forall kvs, data <> JObj kvs) ->
  import_block gdf (Some file_bytes) st
  = ({| zones := zones st; last_upload_hash := Some (hash file_bytes) |},
     [st_error AttributeError]).
Proof.
  intros Hd Hdec Hload Hobj. unfold import_block. rewrite Hd.
  unfold import_body. rewrite Hdec, Hload.
  destruct data as [| b | n | s | l | kvs]; try reflexivity.
  exfalso. apply (Hobj kvs). reflexivity.
Qed.

(** X9.  A FeatureCollection without a [features] entry fails with a
    KeyError, and one whose [features] cannot be iterated with the error of
    the iteration; in both cases the zones stay as they were. *)
Theorem collection_needs_features (file_bytes : list byte)
    (st : session_state) (text : string) (kvs : list (string * json))
    (e : exn) :
  hash_differs (hash file_bytes) (last_upload_hash st) = true ->
  decode file_bytes = Some text ->
  json_loads text = Some (JObj kvs) ->
  is_feature_collection (JObj kvs) = true ->
  (lookup "features" kvs = None /\ e = KeyError)
  \/ (exists v, lookup "features" kvs = Some v /\ iter v = Raise e) ->
  import_block gdf (Some file_bytes) st
  = ({| zones := zones st; last_upload_hash := Some (hash file_bytes) |},
     [st_error e]).
Proof.
  intros Hd Hdec Hload Hfc Hfeat. unfold import_block. rewrite Hd.
  unfold import_body. rewrite Hdec, Hload, Hfc. unfold getitem.
  destruct Hfeat as [[Hnone He] | [v [Hsome Hiter]]].
  - rewrite Hnone, He. reflexivity.
  - rewrite Hsome. cbn [of_option bind]. rewrite Hiter. reflexivity.
Qed.

(** X10.  A payload with nothing in it is imported with success and changes
    no zone: the empty object counts as a legacy export of 0 zones, and a
    FeatureCollection whose [features] is empty as 0 zones from GeoJSON. *)
Theorem empty_payload_imports_nothing (file_bytes : list byte)
    (st : session_state) (text : string) (data : json) :
  hash_differs (hash file_bytes) (last_upload_hash st) = true ->
  decode file_bytes = Some text ->
  json_loads text = Some data ->
  (data = JObj [] ->
   import_block gdf (Some file_bytes) st
   = ({| zones := zones st; last_upload_hash := Some (hash file_bytes) |},
      [st_success "Imported 0 zones from JSON."]))
  /\ (forall fs,
        is_feature_collection data = true ->
        getitem data "features" = Ok fs ->
        iter fs = Ok [] ->
        import_block gdf (Some file_bytes) st
        = ({| zones := zones st; last_upload_hash := Some (hash file_bytes) |},
           [st_success "Imported 0 zones from GeoJSON."])).
Proof.
  intros Hd Hdec Hload. split.
  - intros ->. unfold import_block. rewrite Hd.
    unfold import_body. rewrite Hdec, Hload. reflexivity.
  - intros fs Hfc Hfs Hiter. unfold import_block. rewrite Hd.
    unfold import_body. rewrite Hdec, Hload, Hfc, Hfs. cbn [bind].
    rewrite Hiter. reflexivity.
Qed.

(** X11.  A feature whose [name] is a list or an object cannot be a key of
    the store: the feature raises a TypeError (which ends the import) after
    its geometry was read. *)
Theorem unhashable_name_is_refused (feat raw : json) (g : Geometry)
    (props : list (string * json)) (label : json) (zs : store) :
  get feat "geometry" (JObj []) = Ok raw ->
  shape raw = Some g ->
  get feat "properties" (JObj []) = Ok (JObj props) ->
  lookup "name" props = Some label ->
  hashable label = false ->
  import_feature gdf feat zs = Raise TypeError.
Proof.
  intros Hraw Hshape Hprops Hname Hh. unfold import_feature.
  rewrite Hraw. cbn [bind]. rewrite Hshape. cbn [of_option bind].
  rewrite Hprops. cbn [bind]. simpl. rewrite Hname.
  unfold setitem. rewrite Hh. reflexivity.
Qed.

(** X12.  The color an import record gives is stored as it is, whatever
    JSON value it is, in both forms of payload. *)
Theorem import_keeps_the_color_given :
  (forall (label : string) (entry : list (string * json)) (c : json)
          (zs zs' : store),
      import_item gdf label (JObj entry) zs = Ok zs' ->
      lookup "color" entry = Some c ->
      exists z, dict_get (JStr label) zs' = Some z /\ color z = c)
  /\ (forall (feat : json) (props : list (string * json)) (c : json)
             (zs zs' : store),
         import_feature gdf feat zs = Ok zs' ->
         get feat "properties" (JObj []) = Ok (JObj props) ->
         lookup "color" props = Some c ->
         exists label z,
           get (JObj props) "name"
               (JStr ("Zone " ++ str_nat (List.length zs + 1))) = Ok label
           /\ dict_get label zs' = Some z /\ color z = c).
Proof.
  split.
  - intros label entry c zs zs' H Hc. unfold import_item in H.
    bind_ok H. simpl in E1. rewrite Hc in E1. inversion E1; subst; clear E1.
    unfold setitem in H. simpl in H. inversion H; subst; clear H.
    eexists. split; [apply dict_get_set; reflexivity | reflexivity].
  - intros feat props c zs zs' H Hprops Hc. unfold import_feature in H.
    bind_ok H. inversion Hprops; subst; clear Hprops.
    simpl in E3. rewrite Hc in E3. inversion E3; subst; clear E3.
    unfold setitem in H. destruct (hashable a2) eqn:Hh; [| discriminate H].
    inversion H; subst; clear H.
    exists a2. eexists. split; [exact E2 |].
    split; [apply dict_get_set; exact Hh | reflexivity].
Qed.

Lemma import_items_other (l : string) (items : list (string * json)) :
  forall (zs zs1 : store) (r : result unit),
    import_items gdf items zs = (zs1, r) ->
    ~ In l (map fst items) ->
    dict_get (JStr l) zs1 = dict_get (JStr l) zs.
Proof.
  induction items as [| [l' info] rest IH]; intros zs zs1 r H Hl; simpl in H.
  - inversion H. reflexivity.
  - simpl in Hl.
    destruct (import_item_cases l' info) as [[z [_ Hz]] | [e He]].
    + rewrite Hz in H. rewrite (IH _ _ _ H) by tauto.
      apply dict_get_set_other. simpl. apply String.eqb_neq. tauto.
    + rewrite He in H. inversion H. reflexivity.
Qed.

Lemma import_items_again (items : list (string * json)) :
  NoDup (map fst items) ->
  forall (zs zs1 : store) (r : result unit),
    import_items gdf items zs = (zs1, r) ->
    import_items gdf items zs1 = (zs1, r).
Proof.
  induction items as [| [l info] rest IH]; intros Hnd zs zs1 r H; simpl in *.
  - inversion H. reflexivity.
  - inversion Hnd as [| ? ? Hl Hrest]; subst.
    destruct (import_item_cases l info) as [[z [_ Hz]] | [e He]].
    + rewrite Hz in H. rewrite Hz.
      assert (Hget : dict_get (JStr l) zs1 = Some z).
      { rewrite (import_items_other l rest _ _ _ H Hl).
        apply dict_get_set. reflexivity. }
      rewrite (dict_set_same _ _ _ Hget).
      exact (IH Hrest _ _ _ H).
    + rewrite He in H. rewrite He. inversion H; subst. reflexivity.
Qed.

(** X13.  Reading a legacy payload a second time changes nothing: the body
    of the import run on the store it has just produced gives the same store
    and the same outcome.  (The keys of the payload are distinct, as the keys
    of a parsed object are.) *)
Theorem legacy_import_twice_is_once (file_bytes : list byte) (zs : store)
    (text : string) (items : list (string * json)) :
  decode file_bytes = Some text ->
  json_loads text = Some (JObj items) ->
  is_feature_collection (JObj items) = false ->
  NoDup (map fst items) ->
  import_body gdf file_bytes (fst (import_body gdf file_bytes zs))
  = import_body gdf file_bytes zs.
Proof.
  intros Hdec Hload Hfc Hnd. unfold import_body.
  rewrite Hdec, Hload, Hfc.
  destruct (import_items gdf items zs) as [zs1 r] eqn:E. simpl.
  rewrite (import_items_again items Hnd _ _ _ E). reflexivity.
Qed.

(** X14.  The guard remembers the last file only: after a file and then
    another with a different hash, the first file submitted again is read
    again, not skipped. *)
Theorem guard_remembers_last_file_only (a b : list byte) (st : session_state) :
  hash a <> hash b ->
  let st2 := fst (import_block gdf (Some b)
                    (fst (import_block gdf (Some a) st))) in
  import_block gdf (Some a) st2
  = ({| zones := fst (import_body gdf a (zones st2));
        last_upload_hash := Some (hash a) |},
     [match snd (import_body gdf a (zones st2)) with
      | Ok text => st_success text
      | Raise e => st_error e
      end]).
Proof.
  intros Hab st2.
  assert (Hlast : last_upload_hash st2 = Some (hash b))
    by apply import_block_fingerprint.
  unfold import_block. rewrite Hlast. unfold hash_differs.
  apply Z.eqb_neq in Hab. rewrite Hab. simpl.
  destruct (import_body gdf a (zones st2)) as [zs r]. reflexivity.
Qed.

(** X15.  The guard compares hashes, not bytes: a file whose hash is the
    hash of the file submitted just before is skipped, whatever it holds. *)
Theorem same_hash_is_skipped (a b : list byte) (st : session_state) :
  hash b = hash a ->
  import_block gdf (Some b) (fst (import_block gdf (Some a) st))
  = (fst (import_block gdf (Some a) st),
     [st_info "This file has already been imported."]).
Proof.
  intros Hab. apply import_block_again.
  rewrite import_block_fingerprint, Hab. reflexivity.
Qed.

(** *** Export *)

(** X16.  The export depends on labels, geometries and colors only: two
    stores that agree on them give the same export (or none, when empty),
    whatever their members, counts and upload fingerprints. *)
Theorem export_ignores_members (st st' : session_state) :
  Forall2 (fun lz lz' => fst lz = fst lz'
                         /\ geometry (snd lz) = geometry (snd lz')
                         /\ color (snd lz) = color (snd lz'))
          (zones st) (zones st') ->
  export_block st = export_block st'.
Proof.
  intros H.
  assert (Hdata : export_data (zones st) = export_data (zones st')).
  { induction H as [| [k z] [k' z'] zs zs' [Hk [Hg Hc]] _ IH]; simpl.
    - reflexivity.
    - simpl in Hk, Hg, Hc. rewrite Hk, Hg, Hc, IH. reflexivity. }
  unfold export_block. rewrite Hdata.
  destruct H; reflexivity.
Qed.

(** *** Summary table *)

(** X17.  When the customer table has the four columns the page shows, the
    summary of a reachable store has one entry per zone, in store order: its
    heading gives the label and the number of members, and its table has the
    four columns and one row of four cells per member. *)
Theorem summary_lists_every_zone (st : session_state) :
  reachable gdf st ->
  (forall c, In c shown_columns -> In c (columns gdf)) ->
  exists items : list summary_item,
    summary_block (zones st) = Ok items
    /\ Forall2 (fun lz item =>
                  subheader item
                  = str (fst lz) ++ " – "
                      ++ str_nat (List.length (rows (data (snd lz))))
                      ++ " customers"
                  /\ header (shown item) = shown_columns
                  /\ List.length (body (shown item))
                     = List.length (rows (data (snd lz)))
                  /\ Forall (fun r => List.length r = 4) (body (shown item)))
               (zones st) items.
Proof.
  intros Hreach Hcols.
  pose proof (proj1 (reachable_ok gdf st Hreach)) as Hok. unfold store_ok in Hok.
  destruct (indices_found shown_columns (columns gdf) Hcols) as [ixs [Hixs Hlen]].
  induction Hok as [| [label z] zs [Hdata Hcount] _ IH]; simpl.
  - exists []. split; [reflexivity | constructor].
  - destruct IH as [items [Hitems Hall]]. simpl in Hdata, Hcount.
    unfold summary_of, select.
    replace (columns (data z)) with (columns gdf) by (rewrite Hdata; reflexivity).
    rewrite Hixs. cbn [bind]. rewrite Hitems. cbn [bind].
    eexists. split; [reflexivity |].
    constructor; [| exact Hall]. simpl.
    split; [rewrite Hcount; reflexivity |]. split; [reflexivity |].
    split; [apply length_map |].
    apply Forall_forall. intros r Hr. apply in_map_iff in Hr as [c [<- _]].
    rewrite length_map. exact Hlen.
Qed.

(** X18.  When the customer table lacks one of the four columns the page
    shows, the summary of a reachable store that is not empty raises a
    KeyError: no table and no download is offered. *)
Theorem summary_needs_the_shown_columns (st : session_state) (c : string) :
  reachable gdf st ->
  zones st <> [] ->
  In c shown_columns ->
  ~ In c (columns gdf) ->
  summary_block (zones st) = Raise KeyError.
Proof.
  intros Hreach Hne Hc Hmiss.
  pose proof (proj1 (reachable_ok gdf st Hreach)) as Hok. unfold store_ok in Hok.
  destruct (zones st) as [| [label z] zs]; [contradiction Hne; reflexivity |].
  inversion Hok as [| ? ? [Hdata _] _]; subst. simpl in Hdata. simpl.
  unfold summary_of, select.
  replace (columns (data z)) with (columns gdf) by (rewrite Hdata; reflexivity).
  rewrite (indices_missing c shown_columns (columns gdf) Hc Hmiss). reflexivity.
Qed.

End Behaviour.

(* ------------------------------------------------------------------ *)
(** ** The script on the small session                                  *)
(* ------------------------------------------------------------------ *)

(** Containment in the plane is strict: a contained point is inside the
    outer ring, off its edges, and outside every hole, off their edges. *)
Lemma plane_contains_is_strict (g : Plane.polygon) (p : Plane.pos) :
  Plane.contains g p = true ->
  Plane.locate p (Plane.exterior g) = Plane.Inside
  /\ Forall (fun h => Plane.locate p h = Plane.Outside) (Plane.holes g).
Proof.
  unfold Plane.contains. intros H. apply andb_true_iff in H as [Hext Hholes].
  split.
  - destruct (Plane.locate p (Plane.exterior g)); [reflexivity | discriminate Hext ..].
  - rewrite forallb_forall in Hholes. apply Forall_forall. intros h Hh.
    specialize (Hholes h Hh).
    destruct (Plane.locate p h); [discriminate Hholes .. | reflexivity].
Qed.

(** A point on an edge, a point in a hole and a point on the edge of a hole
    are not contained; a point of the frame is. *)
Lemma plane_contains_examples :
  Plane.contains Demo.north_square (1, 0)%Z = false
  /\ Plane.contains Demo.frame_around_B (5, 5)%Z = false
  /\ Plane.contains Demo.frame_around_B (4, 5)%Z = false
  /\ Plane.contains Demo.frame_around_B (3, 3)%Z = true.
Proof. repeat split. Qed.

#[local] Existing Instance Plane.lib.
#[local] Existing Instance Codec.lib.

(** The session with North and South saved is two runs away from a new one. *)
Lemma north_south_reachable : reachable Demo.roster Demo.north_south.
Proof. apply reach_run, reach_run, reach_fresh. Qed.

(** C1 on the session with North and South: North holds A alone; C, on its
    edge, and B are not members. *)
Lemma members_are_the_customers_within_witness :
  (reachable Demo.roster Demo.north_south
   /\ In (JStr "North", Demo.north_zone) (zones Demo.north_south))
  /\ (rows (data Demo.north_zone)
      = filter (fun c => within (pt c) (geometry Demo.north_zone))
               (rows Demo.roster)
      /\ count Demo.north_zone = List.length (rows (data Demo.north_zone))
      /\ forall c, In c (rows Demo.roster) ->
                   (In c (rows (data Demo.north_zone))
                    <-> within (pt c) (geometry Demo.north_zone) = true)).
Proof.
  assert (Hin : In (JStr "North", Demo.north_zone) (zones Demo.north_south))
    by (left; reflexivity).
  split; [split; [exact north_south_reachable | exact Hin] |].
  exact (members_are_the_customers_within (SH := Plane.lib) Demo.roster
           Demo.north_south (JStr "North") Demo.north_zone
           north_south_reachable Hin).
Defined.

(** C8 on the zone South of that session. *)
Lemma count_is_number_of_members_witness :
  (reachable Demo.roster Demo.north_south
   /\ In (JStr "South", Demo.south_zone "blue") (zones Demo.north_south))
  /\ count (Demo.south_zone "blue")
     = List.length (rows (data (Demo.south_zone "blue"))).
Proof.
  assert (Hin : In (JStr "South", Demo.south_zone "blue") (zones Demo.north_south))
    by (right; left; reflexivity).
  split; [split; [exact north_south_reachable | exact Hin] |].
  exact (count_is_number_of_members (SH := Plane.lib) Demo.roster
           Demo.north_south (JStr "South") (Demo.south_zone "blue")
           north_south_reachable Hin).
Defined.

(** C6: South, saved second, is blue. *)
Lemma drawn_zone_color_cycles_witness :
  save_block Demo.roster (Demo.drawn (Demo.square 5 5)) "South" true
             Demo.north_saved
  = Ok (Demo.north_south, [st_success "Saved South with 1 customers."])
  /\ exists z,
      dict_get (JStr "South") (zones Demo.north_south) = Some z
      /\ color z = JStr (nth (List.length (zones Demo.north_saved)
                              mod List.length palette) palette "")
      /\ palette = ["red"; "blue"; "green"; "purple"; "orange"].
Proof.
  assert (H : save_block Demo.roster
                (Demo.drawn (Demo.square 5 5)) "South" true Demo.north_saved
              = Ok (Demo.north_south, [st_success "Saved South with 1 customers."]))
    by reflexivity.
  split; [exact H |].
  exact (drawn_zone_color_cycles (SH := Plane.lib) Demo.roster _ _ _ _ _ _ H).
Defined.

(** C3: the square of North drawn again from another corner and the other
    way round, under another label, is not saved. *)
Lemma duplicate_shape_is_not_saved_witness :
  (get (Demo.drawn (Demo.square_turned 0 0)) "last_active_drawing" JNull
   = Ok (JObj [("type", JStr "Feature"); ("geometry", Demo.square_turned 0 0)])
   /\ shape (Demo.square_turned 0 0) = Some Demo.turned_square
   /\ In (JStr "North", Demo.north_zone) (zones Demo.north_saved)
   /\ equals Demo.turned_square (geometry Demo.north_zone) = true)
  /\ save_block Demo.roster (Demo.drawn (Demo.square_turned 0 0))
                "Elsewhere" true Demo.north_saved
     = Ok (Demo.north_saved, []).
Proof.
  assert (Hin : In (JStr "North", Demo.north_zone) (zones Demo.north_saved))
    by (left; reflexivity).
  split; [repeat split; try reflexivity; exact Hin |].
  apply (duplicate_shape_is_not_saved (SH := Plane.lib) Demo.roster
           (Demo.drawn (Demo.square_turned 0 0)) "Elsewhere" true Demo.north_saved
           (JObj [("type", JStr "Feature"); ("geometry", Demo.square_turned 0 0)])
           (Demo.square_turned 0 0) Demo.turned_square
           (JStr "North", Demo.north_zone));
    try reflexivity.
  exact Hin.
Defined.

(** C10: a file that is not JSON fails once and is skipped the second time. *)
Lemma fingerprint_is_set_before_parsing_witness :
  (hash_differs (hash Demo.not_json) (last_upload_hash fresh) = true
   /\ decode Demo.not_json = Some "zones, please"
   /\ json_loads "zones, please" = None)
  /\ Demo.import_of Demo.not_json fresh
     = ({| zones := []; last_upload_hash := Some (hash Demo.not_json) |},
        [st_error ValueError])
  /\ Demo.import_of Demo.not_json
       {| zones := []; last_upload_hash := Some (hash Demo.not_json) |}
     = ({| zones := []; last_upload_hash := Some (hash Demo.not_json) |},
        [st_info "This file has already been imported."]).
Proof.
  destruct (fingerprint_is_set_before_parsing (SH := Plane.lib) Demo.roster
              Demo.not_json fresh) as [_ [Hfail Hagain]].
  assert (H1 : hash_differs (hash Demo.not_json) (last_upload_hash fresh) = true)
    by reflexivity.
  assert (H2 : decode Demo.not_json = Some "zones, please") by reflexivity.
  assert (H3 : json_loads "zones, please" = None) by reflexivity.
  split; [repeat split; assumption |].
  assert (H4 : Demo.import_of Demo.not_json fresh
               = ({| zones := []; last_upload_hash := Some (hash Demo.not_json) |},
                  [st_error ValueError])).
  { apply Hfail; [exact H1 | right; exists "zones, please"; split; assumption]. }
  split; [exact H4 |].
  exact (Hagain _ _ H4).
Defined.

(** C5, as the script has it, on the file of three features: North is kept,
    the feature without geometry ends the import. *)
Lemma import_ends_at_first_failing_record_witness :
  (hash_differs (hash Demo.north_sliver_south) (last_upload_hash fresh) = true
   /\ json_loads (Codec.print (Demo.collection
                     [Demo.north_feature; Demo.broken_feature; Demo.south_feature]))
      = Some (Demo.collection
                [Demo.north_feature; Demo.broken_feature; Demo.south_feature])
   /\ import_features Demo.roster [Demo.north_feature] [] 0
      = ([(JStr "North", Demo.north_zone)], Ok 1)
   /\ import_feature Demo.roster Demo.broken_feature [(JStr "North", Demo.north_zone)]
      = Raise GeometryError)
  /\ Demo.import_of Demo.north_sliver_south fresh
     = ({| zones := [(JStr "North", Demo.north_zone)];
           last_upload_hash := Some (hash Demo.north_sliver_south) |},
        [st_error GeometryError]).
Proof.
  assert (H1 : hash_differs (hash Demo.north_sliver_south) (last_upload_hash fresh) = true)
    by reflexivity.
  assert (H2 : json_loads (Codec.print (Demo.collection
                     [Demo.north_feature; Demo.broken_feature; Demo.south_feature]))
      = Some (Demo.collection
                [Demo.north_feature; Demo.broken_feature; Demo.south_feature]))
    by (vm_compute; reflexivity).
  assert (H3 : import_features Demo.roster [Demo.north_feature] [] 0
      = ([(JStr "North", Demo.north_zone)], Ok 1)) by reflexivity.
  assert (H4 : import_feature Demo.roster Demo.broken_feature [(JStr "North", Demo.north_zone)]
      = Raise GeometryError) by reflexivity.
  split; [repeat split; assumption |].
  apply (import_ends_at_first_failing_record (SH := Plane.lib) Demo.roster
           Demo.north_sliver_south fresh
           (Codec.print (Demo.collection
              [Demo.north_feature; Demo.broken_feature; Demo.south_feature]))
           (Demo.collection
              [Demo.north_feature; Demo.broken_feature; Demo.south_feature])
           [Demo.north_feature] [Demo.south_feature] Demo.broken_feature
           [(JStr "North", Demo.north_zone)] 1 GeometryError);
    try assumption; reflexivity.
Defined.

(** C7, as the script has it: South imported without a color into a store
    of one zone is red, in both forms. *)
Lemma import_default_color_is_red_witness :
  ((import_item Demo.roster "South" (JObj [("geometry", Demo.square 5 5)])
                (zones Demo.north_saved)
    = Ok [(JStr "North", Demo.north_zone); (JStr "South", Demo.south_zone "red")]
    /\ lookup "color" [("geometry", Demo.square 5 5)] = None)
   /\ exists z,
       dict_get (JStr "South")
                [(JStr "North", Demo.north_zone); (JStr "South", Demo.south_zone "red")]
       = Some z
       /\ color z = JStr "red")
  /\ ((import_feature Demo.roster Demo.south_feature (zones Demo.north_saved)
       = Ok [(JStr "North", Demo.north_zone); (JStr "South", Demo.south_zone "red")]
       /\ get Demo.south_feature "properties" (JObj [])
          = Ok (JObj [("name", JStr "South")])
       /\ lookup "color" [("name", JStr "South")] = None)
      /\ exists label z,
          get (JObj [("name", JStr "South")]) "name"
              (JStr ("Zone " ++ str_nat (List.length (zones Demo.north_saved) + 1)))
          = Ok label
          /\ dict_get label
                [(JStr "North", Demo.north_zone); (JStr "South", Demo.south_zone "red")]
             = Some z
          /\ color z = JStr "red").
Proof.
  destruct (import_default_color_is_red (SH := Plane.lib) Demo.roster)
    as [Hlegacy Hfeature].
  split.
  - assert (H1 : import_item Demo.roster "South" (JObj [("geometry", Demo.square 5 5)])
                   (zones Demo.north_saved)
                 = Ok [(JStr "North", Demo.north_zone);
                       (JStr "South", Demo.south_zone "red")]) by reflexivity.
    assert (H2 : lookup "color" [("geometry", Demo.square 5 5)] = None)
      by reflexivity.
    split; [split; assumption |].
    exact (Hlegacy _ _ _ _ H1 H2).
  - assert (H1 : import_feature Demo.roster Demo.south_feature (zones Demo.north_saved)
                 = Ok [(JStr "North", Demo.north_zone);
                       (JStr "South", Demo.south_zone "red")]) by reflexivity.
    assert (H2 : get Demo.south_feature "properties" (JObj [])
                 = Ok (JObj [("name", JStr "South")])) by reflexivity.
    assert (H3 : lookup "color" [("name", JStr "South")] = None) by reflexivity.
    split; [repeat split; assumption |].
    exact (Hfeature _ _ _ _ H1 H2 H3).
Defined.

(** C9, as the script has it, on the session with North and South. *)
Lemma zone_download_is_the_member_frame_witness :
  (reachable Demo.roster Demo.north_south
   /\ summary_block (zones Demo.north_south)
      = Ok (Demo.summary_of_store Demo.north_south))
  /\ Forall2 (fun lz item =>
                let written := as_table wkt (data (snd lz)) in
                content (csv item) = to_csv written
                /\ header written = (columns Demo.roster ++ ["geometry"])%list
                /\ body written
                   = map (fun c => (cells c ++ [wkt (pt c)])%list)
                         (filter (fun c => within (pt c) (geometry (snd lz)))
                                 (rows Demo.roster))
                /\ file_name (csv item)
                   = str (fst lz) ++ "_Customers_" ++ VERSION ++ ".csv"
                /\ select shown_columns (data (snd lz)) = Ok (shown item))
             (zones Demo.north_south) (Demo.summary_of_store Demo.north_south).
Proof.
  assert (H : summary_block (zones Demo.north_south)
              = Ok (Demo.summary_of_store Demo.north_south)) by reflexivity.
  split; [split; [exact north_south_reachable | exact H] |].
  exact (zone_download_is_the_member_frame (SH := Plane.lib) Demo.roster
           Demo.north_south _ north_south_reachable H).
Defined.

(** Both squares are read back as they were written. *)
Lemma north_south_round_trips :
  Forall (fun lz => geometry_round_trips Demo.roster (snd lz)) (zones Demo.north_south).
Proof.
  repeat constructor; simpl.
  - exists Demo.north_square. repeat split.
  - exists Demo.south_square. repeat split.
Qed.

(** Both labels are text. *)
Lemma north_south_text_labels :
  Forall (fun lz => text_label (fst lz)) (zones (SH := Plane.lib) Demo.north_south).
Proof. repeat constructor; simpl; eexists; reflexivity. Qed.

(** C2, as the script has it: the export of North and South imported in a
    new session. *)
Lemma export_then_import_rebuilds_text_labelled_store_witness :
  (reachable Demo.roster Demo.north_south
   /\ Forall (fun lz => text_label (fst lz)) (zones (SH := Plane.lib) Demo.north_south)
   /\ Forall (fun lz => geometry_round_trips Demo.roster (snd lz))
             (zones Demo.north_south)
   /\ export_block Demo.north_south = Some (Demo.export_of Demo.north_south)
   /\ decode (encode (content (Demo.export_of Demo.north_south)))
      = Some (content (Demo.export_of Demo.north_south))
   /\ json_loads (content (Demo.export_of Demo.north_south))
      = Some (as_object (export_data (zones Demo.north_south))))
  /\ exists (st' : session_state) (msg : string),
      Demo.import_of (encode (content (Demo.export_of Demo.north_south))) fresh
      = (st', [st_success msg])
      /\ map fst (zones st') = map fst (zones Demo.north_south)
      /\ Forall2 (fun lz lz' => same_zone Demo.roster (snd lz) (snd lz'))
                 (zones Demo.north_south) (zones st').
Proof.
  assert (H1 : export_block Demo.north_south = Some (Demo.export_of Demo.north_south))
    by reflexivity.
  assert (H2 : decode (encode (content (Demo.export_of Demo.north_south)))
               = Some (content (Demo.export_of Demo.north_south)))
    by (vm_compute; reflexivity).
  assert (H3 : json_loads (content (Demo.export_of Demo.north_south))
               = Some (as_object (export_data (zones Demo.north_south))))
    by (vm_compute; reflexivity).
  split.
  - repeat split; try assumption.
    + exact north_south_reachable.
    + exact north_south_text_labels.
    + exact north_south_round_trips.
  - exact (export_then_import_rebuilds_text_labelled_store (SH := Plane.lib)
             Demo.roster Demo.north_south (Demo.export_of Demo.north_south)
             north_south_reachable north_south_text_labels
             north_south_round_trips H1 H2 H3).
Defined.

(** C2 fails on a label that is not text.  A feature named with the number 5
    is stored under the key 5; the export writes the key as the text "5"; the
    import of that export stores the zone under the text "5": the labels of
    the two stores differ. *)
Lemma numbered_label_comes_back_as_text :
  reachable Demo.roster Demo.five_store
  /\ map fst (zones Demo.five_store) = [JNum 5]
  /\ export_block Demo.five_store = Some (Demo.export_of Demo.five_store)
  /\ map fst (zones (fst (Demo.import_of
                            (encode (content (Demo.export_of Demo.five_store)))
                            fresh)))
     = [JStr "5"]
  /\ map fst (zones (fst (Demo.import_of
                            (encode (content (Demo.export_of Demo.five_store)))
                            fresh)))
     <> map fst (zones Demo.five_store).
Proof.
  split; [apply reach_run, reach_fresh |].
  split; [vm_compute; reflexivity |].
  split; [reflexivity |].
  split; [vm_compute; reflexivity |].
  vm_compute. discriminate.
Qed.

(** C5 fails on three features of which the second has no geometry.  The
    third feature imports well on its own, yet after the import the store
    holds North alone, South is absent, and the run reports one error for the
    whole file. *)
Lemma records_after_a_failure_are_dropped :
  import_feature Demo.roster Demo.south_feature []
  = Ok [(JStr "South", Demo.south_zone "red")]
  /\ zones (fst (Demo.import_of Demo.north_sliver_south fresh))
     = [(JStr "North", Demo.north_zone)]
  /\ dict_get (JStr "South")
              (zones (fst (Demo.import_of Demo.north_sliver_south fresh)))
     = None
  /\ snd (Demo.import_of Demo.north_sliver_south fresh) = [st_error GeometryError].
Proof. repeat split; vm_compute; reflexivity. Qed.

(** C7 fails on a legacy entry without a color imported into a store of one
    zone: the zone is red, while the palette at 1 mod 5 is blue. *)
Lemma imported_color_is_not_cycled :
  exists z,
    dict_get (JStr "South") (zones (fst (Demo.import_of Demo.south_plain Demo.north_saved)))
    = Some z
    /\ snd (Demo.import_of Demo.south_plain Demo.north_saved)
       = [st_success "Imported 1 zones from JSON."]
    /\ color z = JStr "red"
    /\ nth (List.length (zones Demo.north_saved) mod List.length palette) palette ""
       = "blue"
    /\ color z <> JStr (nth (List.length (zones Demo.north_saved)
                             mod List.length palette) palette "").
Proof.
  exists (Demo.south_zone "red").
  split; [vm_compute; reflexivity |].
  split; [vm_compute; reflexivity |].
  split; [reflexivity |].
  split; [reflexivity |].
  vm_compute. discriminate.
Qed.

(** C9 fails on the zone North: the file holds seven columns, the four shown
    on the page among them, and differs from the text of the shown table. *)
Lemma download_is_not_the_shown_table :
  exists item,
    summary_block (zones Demo.north_saved) = Ok [item]
    /\ header (shown item) = shown_columns
    /\ content (csv item)
       = to_csv {| header := ["Customer ID"; "Street Address"; "Latitude";
                              "Longitude"; "Lifetime Net Sales";
                              "Lifetime Avg Order Value"; "geometry"];
                   body := [["A"; "1 First St"; "0"; "0"; "100"; "20";
                             "POINT (0 0)"]] |}
    /\ content (csv item) <> to_csv (shown item).
Proof.
  eexists. split; [vm_compute; reflexivity |].
  split; [reflexivity |].
  split; [vm_compute; reflexivity |].
  vm_compute. discriminate.
Qed.

(* ------------------------------------------------------------------ *)
(** ** Further behaviour on the small session                           *)
(* ------------------------------------------------------------------ *)

(** X1 on the session with North and South. *)
Lemma labels_are_unique_witness :
  reachable Demo.roster Demo.north_south
  /\ Forall (fun lz => hashable (fst lz) = true) (zones Demo.north_south)
  /\ distinct_keys (zones Demo.north_south).
Proof.
  split; [exact north_south_reachable |].
  exact (labels_are_unique (SH := Plane.lib) Demo.roster Demo.north_south
           north_south_reachable).
Defined.

(** X3: the square around B saved under the label North takes the place of
    North. *)
Lemma save_replaces_in_place_or_appends_witness :
  save_block Demo.roster (Demo.drawn (Demo.square 5 5)) "North" true Demo.north_saved
  = Ok (Demo.north_moved, [st_success "Saved North with 1 customers."])
  /\ (last_upload_hash Demo.north_moved = last_upload_hash Demo.north_saved
      /\ map fst (zones Demo.north_moved)
         = match dict_get (JStr "North") (zones Demo.north_saved) with
           | Some _ => map fst (zones Demo.north_saved)
           | None => (map fst (zones Demo.north_saved) ++ [JStr "North"])%list
           end
      /\ (exists z, dict_get (JStr "North") (zones Demo.north_moved) = Some z
                    /\ "Saved North with 1 customers."
                       = "Saved " ++ "North" ++ " with " ++ str_nat (count z)
                           ++ " customers.")
      /\ (forall k, key_eqb (JStr "North") k = false ->
                    dict_get k (zones Demo.north_moved)
                    = dict_get k (zones Demo.north_saved))).
Proof.
  assert (H : save_block Demo.roster (Demo.drawn (Demo.square 5 5)) "North" true
                Demo.north_saved
              = Ok (Demo.north_moved, [st_success "Saved North with 1 customers."]))
    by reflexivity.
  split; [exact H |].
  exact (save_replaces_in_place_or_appends (SH := Plane.lib) Demo.roster
           _ _ _ _ _ _ H).
Defined.

(** X4: a drawing that cannot be read, no upload, no click. *)
Lemma idle_run_changes_nothing_witness :
  (uploaded (Demo.look_at Demo.sliver) = None
   /\ save_clicked (Demo.look_at Demo.sliver) = false)
  /\ Demo.run (Demo.look_at Demo.sliver) Demo.north_south = Demo.north_south.
Proof.
  split; [split; reflexivity |].
  exact (idle_run_changes_nothing (SH := Plane.lib) Demo.roster
           (Demo.look_at Demo.sliver) Demo.north_south eq_refl eq_refl).
Defined.

(** X19: South, saved second, is blue, a color of the palette. *)
Lemma drawn_zone_color_is_in_palette_witness :
  save_block Demo.roster (Demo.drawn (Demo.square 5 5)) "South" true
             Demo.north_saved
  = Ok (Demo.north_south, [st_success "Saved South with 1 customers."])
  /\ exists (z : zone) (c : string),
      dict_get (JStr "South") (zones Demo.north_south) = Some z
      /\ color z = JStr c /\ In c palette.
Proof.
  assert (H : save_block Demo.roster (Demo.drawn (Demo.square 5 5)) "South" true
                Demo.north_saved
              = Ok (Demo.north_south, [st_success "Saved South with 1 customers."]))
    by reflexivity.
  split; [exact H |].
  exact (drawn_zone_color_is_in_palette (SH := Plane.lib) Demo.roster
           _ _ _ _ _ _ H).
Defined.

(** X20: North uploaded and its square, turned, drawn and saved in one run. *)
Lemma shape_imported_in_the_same_run_is_not_saved_witness :
  (shape (Demo.square_turned 0 0) = Some Demo.turned_square
   /\ In (JStr "North", Demo.north_zone)
         (zones (fst (Demo.import_of Demo.north_file fresh)))
   /\ equals Demo.turned_square (geometry Demo.north_zone) = true)
  /\ Demo.run (Demo.upload_and_save Demo.north_file (Demo.square_turned 0 0) "Again")
              fresh
     = fst (Demo.import_of Demo.north_file fresh).
Proof.
  assert (Hin : In (JStr "North", Demo.north_zone)
                   (zones (fst (Demo.import_of Demo.north_file fresh))))
    by (vm_compute; left; reflexivity).
  split; [repeat split; try reflexivity; exact Hin |].
  apply (shape_imported_in_the_same_run_is_not_saved (SH := Plane.lib) Demo.roster
           (Demo.upload_and_save Demo.north_file (Demo.square_turned 0 0) "Again")
           fresh
           (JObj [("type", JStr "Feature"); ("geometry", Demo.square_turned 0 0)])
           (Demo.square_turned 0 0) Demo.turned_square
           (JStr "North", Demo.north_zone));
    try reflexivity.
  exact Hin.
Defined.

(** X5: South imported as a feature into the store that holds North. *)
Lemma feature_is_stored_under_its_name_witness :
  import_feature Demo.roster Demo.south_feature (zones Demo.north_saved)
  = Ok [(JStr "North", Demo.north_zone); (JStr "South", Demo.south_zone "red")]
  /\ exists (props label : json) (z : zone),
      get Demo.south_feature "properties" (JObj []) = Ok props
      /\ get props "name"
             (JStr ("Zone " ++ str_nat (List.length (zones Demo.north_saved) + 1)))
         = Ok label
      /\ dict_get label
           [(JStr "North", Demo.north_zone); (JStr "South", Demo.south_zone "red")]
         = Some z
      /\ map fst [(JStr "North", Demo.north_zone); (JStr "South", Demo.south_zone "red")]
         = match dict_get label (zones Demo.north_saved) with
           | Some _ => map fst (zones Demo.north_saved)
           | None => (map fst (zones Demo.north_saved) ++ [label])%list
           end
      /\ (forall k, key_eqb label k = false ->
                    dict_get k [(JStr "North", Demo.north_zone);
                                (JStr "South", Demo.south_zone "red")]
                    = dict_get k (zones Demo.north_saved)).
Proof.
  assert (H : import_feature Demo.roster Demo.south_feature (zones Demo.north_saved)
              = Ok [(JStr "North", Demo.north_zone);
                    (JStr "South", Demo.south_zone "red")]) by reflexivity.
  split; [exact H |].
  exact (feature_is_stored_under_its_name (SH := Plane.lib) Demo.roster _ _ _ H).
Defined.

(** X6: the entry South of a legacy payload imported over a store that has
    a South already. *)
Lemma item_is_stored_under_its_key_witness :
  import_item Demo.roster "South" (JObj Demo.south_green) (zones Demo.north_south)
  = Ok [(JStr "North", Demo.north_zone); (JStr "South", Demo.south_zone "green")]
  /\ ((exists z, dict_get (JStr "South")
                   [(JStr "North", Demo.north_zone);
                    (JStr "South", Demo.south_zone "green")] = Some z)
      /\ map fst [(JStr "North", Demo.north_zone);
                  (JStr "South", Demo.south_zone "green")]
         = match dict_get (JStr "South") (zones Demo.north_south) with
           | Some _ => map fst (zones Demo.north_south)
           | None => (map fst (zones Demo.north_south) ++ [JStr "South"])%list
           end
      /\ (forall k, key_eqb (JStr "South") k = false ->
                    dict_get k [(JStr "North", Demo.north_zone);
                                (JStr "South", Demo.south_zone "green")]
                    = dict_get k (zones Demo.north_south))).
Proof.
  assert (H : import_item Demo.roster "South" (JObj Demo.south_green)
                (zones Demo.north_south)
              = Ok [(JStr "North", Demo.north_zone);
                    (JStr "South", Demo.south_zone "green")]) by reflexivity.
  split; [exact H |].
  exact (item_is_stored_under_its_key (SH := Plane.lib) Demo.roster _ _ _ _ H).
Defined.

(** X7: North imported twice and South once: three features, two zones. *)
Lemma imported_count_is_number_of_features_witness :
  import_features Demo.roster
    [Demo.north_feature; Demo.south_feature; Demo.north_feature] [] 0
  = ([(JStr "North", Demo.north_zone); (JStr "South", Demo.south_zone "red")], Ok 3)
  /\ (3 = 0 + List.length [Demo.north_feature; Demo.south_feature; Demo.north_feature]
      /\ List.length (@nil (json * zone))
         <= List.length [(JStr "North", Demo.north_zone);
                         (JStr "South", Demo.south_zone "red")]
         <= List.length (@nil (json * zone))
            + List.length [Demo.north_feature; Demo.south_feature; Demo.north_feature]).
Proof.
  assert (H : import_features Demo.roster
                [Demo.north_feature; Demo.south_feature; Demo.north_feature] [] 0
              = ([(JStr "North", Demo.north_zone);
                  (JStr "South", Demo.south_zone "red")], Ok 3)) by reflexivity.
  split; [exact H |].
  exact (imported_count_is_number_of_features (SH := Plane.lib) Demo.roster
           _ _ _ _ _ H).
Defined.

(** X8: a payload that is a list. *)
Lemma payload_must_be_an_object_witness :
  (hash_differs (hash Demo.list_payload) (last_upload_hash Demo.north_saved) = true
   /\ decode Demo.list_payload = Some "[1, 2]"
   /\ json_loads "[1, 2]" = Some (JArr [JNum 1; JNum 2])
   /\ forall kvs, JArr [JNum 1; JNum 2] <> JObj kvs)
  /\ Demo.import_of Demo.list_payload Demo.north_saved
     = ({| zones := zones Demo.north_saved;
           last_upload_hash := Some (hash Demo.list_payload) |},
        [st_error AttributeError]).
Proof.
  assert (H1 : hash_differs (hash Demo.list_payload)
                 (last_upload_hash Demo.north_saved) = true) by reflexivity.
  assert (H2 : decode Demo.list_payload = Some "[1, 2]") by reflexivity.
  assert (H3 : json_loads "[1, 2]" = Some (JArr [JNum 1; JNum 2])) by reflexivity.
  assert (H4 : forall kvs, JArr [JNum 1; JNum 2] <> JObj kvs)
    by (intros kvs; discriminate).
  split; [repeat split; assumption |].
  exact (payload_must_be_an_object (SH := Plane.lib) Demo.roster
           Demo.list_payload Demo.north_saved _ _ H1 H2 H3 H4).
Defined.

(** X9: a FeatureCollection that has no features entry. *)
Lemma collection_needs_features_witness :
  (hash_differs (hash Demo.collection_without_features)
     (last_upload_hash Demo.north_saved) = true
   /\ json_loads (Codec.print (JObj [("type", JStr "FeatureCollection")]))
      = Some (JObj [("type", JStr "FeatureCollection")])
   /\ is_feature_collection (JObj [("type", JStr "FeatureCollection")]) = true
   /\ lookup "features" [("type", JStr "FeatureCollection")] = None)
  /\ Demo.import_of Demo.collection_without_features Demo.north_saved
     = ({| zones := zones Demo.north_saved;
           last_upload_hash := Some (hash Demo.collection_without_features) |},
        [st_error KeyError]).
Proof.
  assert (H1 : hash_differs (hash Demo.collection_without_features)
                 (last_upload_hash Demo.north_saved) = true) by reflexivity.
  assert (H2 : decode Demo.collection_without_features
               = Some (Codec.print (JObj [("type", JStr "FeatureCollection")])))
    by reflexivity.
  assert (H3 : json_loads (Codec.print (JObj [("type", JStr "FeatureCollection")]))
               = Some (JObj [("type", JStr "FeatureCollection")])) by reflexivity.
  assert (H4 : is_feature_collection (JObj [("type", JStr "FeatureCollection")])
               = true) by reflexivity.
  assert (H5 : lookup "features" [("type", JStr "FeatureCollection")] = None)
    by reflexivity.
  split; [repeat split; assumption |].
  exact (collection_needs_features (SH := Plane.lib) Demo.roster
           Demo.collection_without_features Demo.north_saved _ _ KeyError
           H1 H2 H3 H4 (or_introl (conj H5 eq_refl))).
Defined.

(** X10: the empty object and the empty collection. *)
Lemma empty_payload_imports_nothing_witness :
  Demo.import_of Demo.empty_object Demo.north_saved
  = ({| zones := zones Demo.north_saved;
        last_upload_hash := Some (hash Demo.empty_object) |},
     [st_success "Imported 0 zones from JSON."])
  /\ Demo.import_of Demo.empty_collection Demo.north_saved
     = ({| zones := zones Demo.north_saved;
           last_upload_hash := Some (hash Demo.empty_collection) |},
        [st_success "Imported 0 zones from GeoJSON."]).
Proof.
  split.
  - assert (H1 : hash_differs (hash Demo.empty_object)
                   (last_upload_hash Demo.north_saved) = true) by reflexivity.
    assert (H2 : decode Demo.empty_object = Some (Codec.print (JObj [])))
      by reflexivity.
    assert (H3 : json_loads (Codec.print (JObj [])) = Some (JObj []))
      by reflexivity.
    exact (proj1 (empty_payload_imports_nothing (SH := Plane.lib) Demo.roster
                    Demo.empty_object Demo.north_saved _ _ H1 H2 H3) eq_refl).
  - assert (H1 : hash_differs (hash Demo.empty_collection)
                   (last_upload_hash Demo.north_saved) = true) by reflexivity.
    assert (H2 : decode Demo.empty_collection
                 = Some (Codec.print (Demo.collection []))) by reflexivity.
    assert (H3 : json_loads (Codec.print (Demo.collection []))
                 = Some (Demo.collection [])) by reflexivity.
    assert (H4 : is_feature_collection (Demo.collection []) = true)
      by reflexivity.
    assert (H5 : getitem (Demo.collection []) "features" = Ok (JArr []))
      by reflexivity.
    assert (H6 : iter (JArr []) = Ok []) by reflexivity.
    exact (proj2 (empty_payload_imports_nothing (SH := Plane.lib) Demo.roster
                    Demo.empty_collection Demo.north_saved _ _ H1 H2 H3)
                 _ H4 H5 H6).
Defined.

(** X11: a feature named with a list. *)
Lemma unhashable_name_is_refused_witness :
  (shape (Demo.square 0 0) = Some Demo.north_square
   /\ lookup "name" [("name", JArr [JStr "North"])] = Some (JArr [JStr "North"])
   /\ hashable (JArr [JStr "North"]) = false)
  /\ import_feature Demo.roster Demo.listed_feature (zones Demo.north_saved)
     = Raise TypeError.
Proof.
  assert (H1 : get Demo.listed_feature "geometry" (JObj []) = Ok (Demo.square 0 0))
    by reflexivity.
  assert (H2 : shape (Demo.square 0 0) = Some Demo.north_square) by reflexivity.
  assert (H3 : get Demo.listed_feature "properties" (JObj [])
               = Ok (JObj [("name", JArr [JStr "North"])])) by reflexivity.
  assert (H4 : lookup "name" [("name", JArr [JStr "North"])]
               = Some (JArr [JStr "North"])) by reflexivity.
  assert (H5 : hashable (JArr [JStr "North"]) = false) by reflexivity.
  split; [repeat split; assumption |].
  exact (unhashable_name_is_refused (SH := Plane.lib) Demo.roster
           Demo.listed_feature _ _ _ _ (zones Demo.north_saved) H1 H2 H3 H4 H5).
Defined.

(** X12: South imported with the color green, in both forms. *)
Lemma import_keeps_the_color_given_witness :
  (exists z,
      dict_get (JStr "South")
        [(JStr "North", Demo.north_zone); (JStr "South", Demo.south_zone "green")]
      = Some z /\ color z = JStr "green")
  /\ (exists label z,
         get (JObj [("name", JStr "South"); ("color", JStr "green")]) "name"
             (JStr ("Zone " ++ str_nat (List.length (zones Demo.north_saved) + 1)))
         = Ok label
         /\ dict_get label
              [(JStr "North", Demo.north_zone); (JStr "South", Demo.south_zone "green")]
            = Some z
         /\ color z = JStr "green").
Proof.
  destruct (import_keeps_the_color_given (SH := Plane.lib) Demo.roster)
    as [Hlegacy Hfeature].
  split.
  - apply (Hlegacy "South" Demo.south_green (JStr "green") (zones Demo.north_saved));
      reflexivity.
  - apply (Hfeature Demo.south_green_feature
             [("name", JStr "South"); ("color", JStr "green")] (JStr "green")
             (zones Demo.north_saved));
      reflexivity.
Defined.

(** X13: the legacy payload with South read twice over the store with
    North. *)
Lemma legacy_import_twice_is_once_witness :
  (json_loads (Codec.print (JObj [("South", JObj [("geometry", Demo.square 5 5)])]))
   = Some (JObj [("South", JObj [("geometry", Demo.square 5 5)])])
   /\ NoDup (map fst [("South", JObj [("geometry", Demo.square 5 5)])]))
  /\ import_body Demo.roster Demo.south_plain
       (fst (import_body Demo.roster Demo.south_plain (zones Demo.north_saved)))
     = import_body Demo.roster Demo.south_plain (zones Demo.north_saved).
Proof.
  assert (H1 : json_loads
                 (Codec.print (JObj [("South", JObj [("geometry", Demo.square 5 5)])]))
               = Some (JObj [("South", JObj [("geometry", Demo.square 5 5)])]))
    by (vm_compute; reflexivity).
  assert (H2 : NoDup (map fst [("South", JObj [("geometry", Demo.square 5 5)])]))
    by (repeat constructor; simpl; tauto).
  assert (H0 : decode Demo.south_plain
               = Some (Codec.print
                         (JObj [("South", JObj [("geometry", Demo.square 5 5)])])))
    by reflexivity.
  assert (H3 : is_feature_collection
                 (JObj [("South", JObj [("geometry", Demo.square 5 5)])]) = false)
    by reflexivity.
  split; [split; assumption |].
  exact (legacy_import_twice_is_once (SH := Plane.lib) Demo.roster
           Demo.south_plain (zones Demo.north_saved) _ _ H0 H1 H3 H2).
Defined.

(** X14: the legacy payload, then the text that is not JSON, then the
    legacy payload again. *)
Lemma guard_remembers_last_file_only_witness :
  hash Demo.south_plain <> hash Demo.not_json
  /\ snd (Demo.import_of Demo.south_plain
            (fst (Demo.import_of Demo.not_json
                    (fst (Demo.import_of Demo.south_plain fresh)))))
     = [st_success "Imported 1 zones from JSON."].
Proof.
  assert (H : hash Demo.south_plain <> hash Demo.not_json)
    by (vm_compute; discriminate).
  split; [exact H |].
  unfold Demo.import_of.
  rewrite (guard_remembers_last_file_only (SH := Plane.lib) Demo.roster
             Demo.south_plain Demo.not_json fresh H).
  vm_compute. reflexivity.
Defined.

(** X15: the empty file and the file of one zero byte have the same hash. *)
Lemma same_hash_is_skipped_witness :
  (hash ["000"%byte] = hash (@nil byte) /\ ["000"%byte] <> @nil byte)
  /\ Demo.import_of ["000"%byte] (fst (Demo.import_of [] fresh))
     = (fst (Demo.import_of [] fresh),
        [st_info "This file has already been imported."]).
Proof.
  split; [split; [reflexivity | discriminate] |].
  assert (H : hash ["000"%byte] = hash (@nil byte)) by reflexivity.
  exact (same_hash_is_skipped (SH := Plane.lib) Demo.roster [] ["000"%byte]
           fresh H).
Defined.

(** X16: the store with North and South, and the same zones without
    members. *)
Lemma export_ignores_members_witness :
  Forall2 (fun lz lz' => fst lz = fst lz'
                         /\ geometry (snd lz) = geometry (snd lz')
                         /\ color (snd lz) = color (snd lz'))
          (zones Demo.north_south) (zones Demo.north_south_bare)
  /\ export_block Demo.north_south = export_block Demo.north_south_bare.
Proof.
  assert (H : Forall2 (fun lz lz' => fst lz = fst lz'
                                     /\ geometry (snd lz) = geometry (snd lz')
                                     /\ color (snd lz) = color (snd lz'))
                      (zones Demo.north_south) (zones Demo.north_south_bare))
    by (repeat constructor).
  split; [exact H |].
  exact (export_ignores_members (RT := Codec.lib) Demo.north_south
           Demo.north_south_bare H).
Defined.

Lemma roster_has_shown_columns :
  forall c, In c shown_columns -> In c (columns Demo.roster).
Proof.
  intros c [<- | [<- | [<- | [<- | []]]]]; simpl; tauto.
Qed.

(** X17 on the session with North and South. *)
Lemma summary_lists_every_zone_witness :
  (reachable Demo.roster Demo.north_south
   /\ forall c, In c shown_columns -> In c (columns Demo.roster))
  /\ exists items : list summary_item,
      summary_block (zones Demo.north_south) = Ok items
      /\ Forall2 (fun lz item =>
                    subheader item
                    = str (fst lz) ++ " – "
                        ++ str_nat (List.length (rows (data (snd lz))))
                        ++ " customers"
                    /\ header (shown item) = shown_columns
                    /\ List.length (body (shown item))
                       = List.length (rows (data (snd lz)))
                    /\ Forall (fun r => List.length r = 4) (body (shown item)))
                 (zones Demo.north_south) items.
Proof.
  split; [split; [exact north_south_reachable | exact roster_has_shown_columns] |].
  exact (summary_lists_every_zone (SH := Plane.lib) Demo.roster Demo.north_south
           north_south_reachable roster_has_shown_columns).
Defined.

Lemma north_saved_short_reachable :
  reachable Demo.roster_short Demo.north_saved_short.
Proof. apply reach_run, reach_fresh. Qed.

(** X18: North saved over a customer table without the address column. *)
Lemma summary_needs_the_shown_columns_witness :
  (reachable Demo.roster_short Demo.north_saved_short
   /\ zones Demo.north_saved_short <> []
   /\ In "Street Address" shown_columns
   /\ ~ In "Street Address" (columns Demo.roster_short))
  /\ summary_block (zones Demo.north_saved_short) = Raise KeyError.
Proof.
  assert (H1 : zones Demo.north_saved_short <> []) by (vm_compute; discriminate).
  assert (H2 : In "Street Address" shown_columns) by (simpl; tauto).
  assert (H3 : ~ In "Street Address" (columns Demo.roster_short)).
  { simpl. intros [H | [H | [H | []]]]; discriminate H. }
  split; [repeat split; try assumption; exact north_saved_short_reachable |].
  exact (summary_needs_the_shown_columns (SH := Plane.lib) Demo.roster_short
           Demo.north_saved_short "Street Address"
           north_saved_short_reachable H1 H2 H3).
Defined.
